(** * easy-httpserver-mock: the mock server of [main.go]

    A shallow embedding of [main.go]: the declaration structs, [loadConfig],
    [readJSONFile], [setupRouter], the start-up sequence of [main] and the
    watcher goroutine, followed by the properties of the route table and of
    the reload path.

    The program talks to three things it does not own: the operating system
    (files, inotify subscriptions, the listening socket), the YAML decoder
    and the gin router.  The operating system is a record of oracles
    ([OS]), the decoder is a section variable, and the part of gin that
    [setupRouter] drives is modelled in [Module gin]. *)

From Stdlib Require Import ZArith Ascii String List.
From stdpp Require Import gmap strings list fin_maps.
Import ListNotations.

Local Open Scope string_scope.
Local Open Scope Z_scope.
Local Open Scope list_scope.

(** ** Results of fallible calls *)

(** A Go call returning [(T, error)]: [Err] carries [err.Error()]. *)
Inductive result (A : Type) : Type :=
| Ok (a : A)
| Err (msg : string).
Arguments Ok {A} a.
Arguments Err {A} msg.

(** A Go call that either returns or panics. *)
Inductive outcome (A : Type) : Type :=
| Return (a : A)
| Panic (msg : string).
Arguments Return {A} a.
Arguments Panic {A} msg.

Definition bind_outcome {A B : Type} (x : outcome A) (k : A -> outcome B)
  : outcome B :=
  match x with
  | Return a => k a
  | Panic msg => Panic msg
  end.

(** ** The declaration *)

Record Endpoint : Type := {
  Path : string;
  Method : string;
  ResponseFile : string
}.

Record Service : Type := {
  Name : string;
  BasePath : string;
  Endpoints : list Endpoint
}.

Record Config : Type := {
  Services : list Service
}.

(** ** Responses written by a request *)

Inductive Response : Type :=
| Data (code : Z) (contentType : string) (data : string)
    (* c.Data(code, contentType, data) *)
| JSON (code : Z) (obj : list (string * string))
    (* c.JSON(code, gin.H{k: v, ...}) *)
| NotFound.
    (* no registered handler ran: the router's own answer for an
       unmatched request *)

(** ** The operating system, as seen by [main.go] *)

Record OS : Type := {
  ReadFile : string -> result string;      (* ioutil.ReadFile *)
  Abs : string -> result string;           (* filepath.Abs *)
  NewWatcher : result unit;                (* fsnotify.NewWatcher *)
  watcher_Add : string -> result unit;     (* watcher.Add *)
  Listen : result unit                     (* binding :8080 in r.Run *)
}.

(** ** Go's [path] package, as far as gin uses it *)

Module path.

(** The segments of a path between its slashes. *)
Fixpoint segments (s : string) : list string :=
  match s with
  | EmptyString => [EmptyString]
  | String c rest =>
      if Ascii.eqb c "/"
      then EmptyString :: segments rest
      else match segments rest with
           | [] => [String c EmptyString]
           | w :: ws => String c w :: ws
           end
  end.

(** One segment against the segments kept so far (most recent first):
    empty and [.] segments vanish, [..] drops the segment before it and is
    itself dropped at the root. *)
Definition keep (kept : list string) (seg : string) : list string :=
  if String.eqb seg "" then kept
  else if String.eqb seg "." then kept
  else if String.eqb seg ".." then tail kept
  else seg :: kept.

(** [path.Clean] on a rooted path. *)
Definition Clean (p : string) : string :=
  "/" +:+ String.concat "/" (rev (fold_left keep (segments p) [])).

(** [path.Join("/", rel)] for a non-empty [rel]: the elements are glued
    with a slash and the result is cleaned. *)
Definition JoinRoot (rel : string) : string :=
  Clean ("/" +:+ "/" +:+ rel).

End path.

(** ** The gin router, as far as [setupRouter] drives it

    [r.GET(p, h)] and [r.POST(p, h)] on the engine's root group go through
    [RouterGroup.handle]: the pattern is first made absolute with
    [joinPaths(group.basePath, p)], the root group's base path being ["/"],
    and then entered in the tree of its method, where a pattern that already
    has handlers panics ("handlers are already registered for path ...").
    A request is answered by the handler stored under its method and path,
    and by the engine's no-route answer when there is none.

    Patterns are compared byte for byte: gin's parameter segments ([:name],
    [*name]) are not interpreted here, nor is its trailing-slash redirect;
    [NotFound] stands for every answer the router gives on its own, without
    running a registered handler.  A statement that would not survive a
    pattern with a parameter segment is made for patterns without [:] and
    [*] only. *)

Module gin.

(** The one handler body of [setupRouter]: a closure over [responseFile],
    a variable declared afresh in each iteration of the inner loop. *)
Record HandlerFunc : Type := { responseFile : string }.

(** [engine.trees], flattened: (method, absolute path) to handler. *)
Abbreviation Engine := (gmap (string * string) HandlerFunc).

(** [gin.Default()]: no route yet. *)
Definition Default : Engine := ∅.

Fixpoint lastChar (s : string) : option ascii :=
  match s with
  | EmptyString => None
  | String c EmptyString => Some c
  | String _ rest => lastChar rest
  end.

(** [joinPaths("/", relativePath)]. *)
Definition joinPaths (relativePath : string) : string :=
  if String.eqb relativePath "" then "/"
  else
    let finalPath := path.JoinRoot relativePath in
    match lastChar relativePath, lastChar finalPath with
    | Some a, Some b =>
        if Ascii.eqb a "/" && negb (Ascii.eqb b "/")
        then finalPath +:+ "/"
        else finalPath
    | _, _ => finalPath
    end.

Definition calculateAbsolutePath (relativePath : string) : string :=
  joinPaths relativePath.

(** [engine.addRoute(method, path, handlers)]: the assertion on the first
    byte of the path, then the insertion in the tree of the method. *)
Definition addRoute (method path : string) (h : HandlerFunc) (r : Engine)
  : outcome Engine :=
  match path with
  | String "/" _ =>
      match r !! (method, path) with
      | Some _ =>
          Panic ("handlers are already registered for path '"
                   +:+ path +:+ "'")
      | None => Return (<[(method, path) := h]> r)
      end
  | _ => Panic "path must begin with '/'"
  end.

(** [group.handle(httpMethod, relativePath, handlers)]. *)
Definition handle (httpMethod relativePath : string) (h : HandlerFunc)
    (r : Engine) : outcome Engine :=
  addRoute httpMethod (calculateAbsolutePath relativePath) h r.

Definition GET := handle "GET".
Definition POST := handle "POST".

(** [engine.handleHTTPRequest]: the handler of the request, if any. *)
Definition getValue (r : Engine) (httpMethod rPath : string)
  : option HandlerFunc :=
  r !! (httpMethod, rPath).

End gin.


(** ** fsnotify's event operations: [Op] is a bit mask *)

Module fsnotify.

Definition Create : Z := 1.
Definition Write : Z := 2.
Definition Remove : Z := 4.
Definition Rename : Z := 8.
Definition Chmod : Z := 16.

End fsnotify.

(** ** The process *)

(** What the goroutines of the running process share: the [Config] behind
    the pointer [config], the engine [r], the subscriptions of [watcher],
    what the standard logger has written, and whether the watcher goroutine
    is still in its loop. *)
Record State : Type := {
  config : Config;
  router : gin.Engine;
  watched : gset string;
  log : list string;
  watching : bool
}.

Definition printf (line : string) (st : State) : State :=
  {| config := config st; router := router st; watched := watched st;
     log := log st ++ [line]; watching := watching st |}.

(** [*config = *newConfig]. *)
Definition assign_config (newConfig : Config) (st : State) : State :=
  {| config := newConfig; router := router st; watched := watched st;
     log := log st; watching := watching st |}.

(** The watcher goroutine returns. *)
Definition stop_watching (st : State) : State :=
  {| config := config st; router := router st; watched := watched st;
     log := log st; watching := false |}.

Inductive Proc : Type :=
| Running (st : State)
| Exited (code : Z) (output : list string)   (* os.Exit, or main returned *)
| Panicked (msg : string).

(** What the running process receives: an HTTP request, or one of the four
    outcomes of the watcher goroutine's [select]. *)
Inductive Input : Type :=
| Request (method rPath : string)
| Event (Name : string) (Op : Z)
| EventsClosed
| WatcherError (err : string)
| ErrorsClosed.

Section Server.

(** [yaml.Unmarshal(data, &config)], as a function of the bytes. *)
Variable yaml_Unmarshal : string -> result Config.

Definition loadConfig (os : OS) (filename : string) : result Config :=
  match ReadFile os filename with
  | Err err => Err err
  | Ok data =>
      match yaml_Unmarshal data with
      | Err err => Err err
      | Ok config => Ok config
      end
  end.

Definition readJSONFile (os : OS) (filePath : string) : result string :=
  match Abs os filePath with
  | Err err => Err err
  | Ok absPath =>
      match ReadFile os absPath with
      | Err err => Err err
      | Ok data => Ok data
      end
  end.

(** The body of the two closures registered by [setupRouter]. *)
Definition serveFile (os : OS) (h : gin.HandlerFunc) : Response :=
  match readJSONFile os (gin.responseFile h) with
  | Err err => JSON 500 [("error", err)]
  | Ok data => Data 200 "application/json" data
  end.

(** The engine answering one request. *)
Definition ServeHTTP (os : OS) (r : gin.Engine) (method rPath : string)
  : Response :=
  match gin.getValue r method rPath with
  | Some h => serveFile os h
  | None => NotFound
  end.

(** The body of the inner loop of [setupRouter]: a [switch] with two cases
    and no default. *)
Definition register (basePath : string) (r : gin.Engine) (endpoint : Endpoint)
  : outcome gin.Engine :=
  let fullPath := basePath +:+ Path endpoint in
  let responseFile := ResponseFile endpoint in
  if String.eqb (Method endpoint) "GET" then
    gin.GET fullPath {| gin.responseFile := responseFile |} r
  else if String.eqb (Method endpoint) "POST" then
    gin.POST fullPath {| gin.responseFile := responseFile |} r
  else Return r.

Fixpoint registerEndpoints (basePath : string) (endpoints : list Endpoint)
    (r : gin.Engine) : outcome gin.Engine :=
  match endpoints with
  | [] => Return r
  | endpoint :: rest =>
      bind_outcome (register basePath r endpoint)
                   (registerEndpoints basePath rest)
  end.

Fixpoint registerServices (services : list Service) (r : gin.Engine)
  : outcome gin.Engine :=
  match services with
  | [] => Return r
  | service :: rest =>
      bind_outcome
        (registerEndpoints (BasePath service) (Endpoints service) r)
        (registerServices rest)
  end.

Definition setupRouter (config : Config) : outcome gin.Engine :=
  registerServices (Services config) gin.Default.

(** [watcher.Add(name)] followed by the [log.Printf] of its error. *)
Definition watch (os : OS) (name : string) (complaint : string -> string)
    (w : gset string * list string) : gset string * list string :=
  match watcher_Add os name with
  | Ok _ => ({[name]} ∪ w.1, w.2)
  | Err err => (w.1, w.2 ++ [complaint err])
  end.

Definition watchEndpoint (os : OS) (w : gset string * list string)
    (endpoint : Endpoint) : gset string * list string :=
  watch os (ResponseFile endpoint)
        (fun err => "Failed to watch response file "
                      +:+ ResponseFile endpoint +:+ ": " +:+ err)
        w.

Definition watchService (os : OS) (w : gset string * list string)
    (service : Service) : gset string * list string :=
  fold_left (watchEndpoint os) (Endpoints service) w.

(** [main] up to the point where it blocks in [r.Run]. *)
Definition main (os : OS) : Proc :=
  match loadConfig os "./config.yaml" with
  | Err err => Exited 1 ["Failed to load config: " +:+ err]
  | Ok config =>
      match setupRouter config with
      | Panic msg => Panicked msg
      | Return r =>
          match NewWatcher os with
          | Err err => Exited 1 ["Failed to create watcher: " +:+ err]
          | Ok _ =>
              let w0 :=
                watch os "./config.yaml"
                      (fun err => "Failed to watch config file: " +:+ err)
                      (∅, []) in
              let w := fold_left (watchService os) (Services config) w0 in
              match Listen os with
              | Err _ => Exited 0 w.2
              | Ok _ =>
                  Running {| config := config; router := r;
                             watched := w.1; log := w.2;
                             watching := true |}
              end
          end
      end
  end.

(** The body of the [if] in the watcher goroutine. *)
Definition reload (os : OS) (name : string) (st : State) : State :=
  let st := printf ("File modified: " +:+ name) st in
  match loadConfig os "./config.yaml" with
  | Err err => printf ("Failed to reload config: " +:+ err) st
  | Ok newConfig => assign_config newConfig st
  end.

(** One input handled by the running process, against the operating system
    as it is at that moment.  The handlers read neither [config] nor any
    other shared variable, so a request is one step. *)
Definition step (os : OS) (st : State) (i : Input) : Proc * option Response :=
  match i with
  | Request method rPath =>
      (Running st, Some (ServeHTTP os (router st) method rPath))
  | Event name op =>
      if watching st then
        if Z.land op fsnotify.Write =? fsnotify.Write
        then (Running (reload os name st), None)
        else (Running st, None)
      else (Running st, None)
  | WatcherError err =>
      if watching st
      then (Running (printf ("Watcher error: " +:+ err) st), None)
      else (Running st, None)
  | EventsClosed | ErrorsClosed =>
      (Running (stop_watching st), None)
  end.

(** The process after a sequence of inputs, each paired with the operating
    system it meets. *)
Fixpoint run (p : Proc) (inputs : list (OS * Input)) : Proc :=
  match inputs with
  | [] => p
  | (os, i) :: rest =>
      match p with
      | Running st => run (step os st i).1 rest
      | _ => p
      end
  end.

End Server.

(** ** Declared routes, in order *)

(** Every endpoint of the declaration with the base path of its service, in
    the order in which the two loops of [setupRouter] visit them. *)
Definition routes (config : Config) : list (string * Endpoint) :=
  flat_map (fun service => map (pair (BasePath service)) (Endpoints service))
           (Services config).

Definition load_fails_with (yaml_Unmarshal : string -> result Config)
    (os : OS) (err : string) : Prop :=
  ReadFile os "./config.yaml" = Err err \/
  exists data, ReadFile os "./config.yaml" = Ok data /\
               yaml_Unmarshal data = Err err.

(** The verbs for which the [switch] of [setupRouter] has a case. *)
Definition supported (method : string) : Prop :=
  method = "GET" \/ method = "POST".

(** The pattern under which the router stores an endpoint. *)
Definition routePath (basePath : string) (endpoint : Endpoint) : string :=
  gin.calculateAbsolutePath (basePath +:+ Path endpoint).

Definition handlerOf (endpoint : Endpoint) : gin.HandlerFunc :=
  {| gin.responseFile := ResponseFile endpoint |}.

Fixpoint registerRoutes (l : list (string * Endpoint)) (r : gin.Engine)
  : outcome gin.Engine :=
  match l with
  | [] => Return r
  | (basePath, endpoint) :: rest =>
      bind_outcome (register basePath r endpoint) (registerRoutes rest)
  end.

(** The same test as a boolean, and the key under which the router stores a
    declared endpoint. *)
Definition supportedb (method : string) : bool :=
  String.eqb method "GET" || String.eqb method "POST".

Definition routeKey (be : string * Endpoint) : string * string :=
  (Method be.2, routePath be.1 be.2).

(** The keys that [setupRouter] registers, in order of registration. *)
Definition routeKeys (l : list (string * Endpoint)) : list (string * string) :=
  map routeKey (List.filter (fun be => supportedb (Method be.2)) l).

(** A pattern without [:] and [*], the two bytes with which gin starts a
    parameter or catch-all segment.  For such patterns the router compares
    paths byte for byte, and registration panics on a repeated key only. *)
Fixpoint wildcard_free (p : string) : bool :=
  match p with
  | EmptyString => true
  | String c rest =>
      negb (Ascii.eqb c ":") && negb (Ascii.eqb c "*") && wildcard_free rest
  end.

(** Every endpoint with a supported method is stored under a pattern
    without wildcards. *)
Definition literal_routes (config : Config) : Prop :=
  forall b e,
    (b, e) ∈ routes config -> supported (Method e) ->
    wildcard_free (routePath b e) = true.

(** The same, as a test. *)
Definition literal_routesb (config : Config) : bool :=
  forallb (fun be => implb (supportedb (Method be.2))
                           (wildcard_free (routePath be.1 be.2)))
          (routes config).

(** Inputs other than HTTP requests. *)
Definition not_request (x : OS * Input) : bool :=
  match x.2 with
  | Request _ _ => false
  | _ => true
  end.

(** ** A small installation

    A working directory [/srv/mock] holding a declaration and a few response
    files, and the decoder on the declarations used below. *)

Module Fixture.

Definition nl : string := String "010"%char EmptyString.
Definition dq : string := String "034"%char EmptyString.

Definition lines (l : list string) : string :=
  String.concat nl l +:+ nl.

Definition endpoint_yaml (p m f : string) : list string :=
  [ "      - path: " +:+ p;
    "        method: " +:+ m;
    "        responseFile: " +:+ f ].

Definition service_yaml (n b : string) (endpoints : list string)
  : list string :=
  [ "  - name: " +:+ n;
    "    basePath: " +:+ b;
    "    endpoints:" ] ++ endpoints.

(** GET /api/ping, answered from ping.json. *)
Definition ping_config : Config :=
  {| Services :=
       [ {| Name := "api"; BasePath := "/api";
            Endpoints :=
              [ {| Path := "/ping"; Method := "GET";
                   ResponseFile := "ping.json" |} ] |} ] |}.

Definition ping_yaml : string :=
  lines ("services:" ::
         service_yaml "api" "/api" (endpoint_yaml "/ping" "GET" "ping.json")).

(** The same route moved to pong.json, and a second route. *)
Definition pong_config : Config :=
  {| Services :=
       [ {| Name := "api"; BasePath := "/api";
            Endpoints :=
              [ {| Path := "/ping"; Method := "GET";
                   ResponseFile := "pong.json" |};
                {| Path := "/status"; Method := "GET";
                   ResponseFile := "status.json" |} ] |} ] |}.

Definition pong_yaml : string :=
  lines ("services:" ::
         service_yaml "api" "/api"
           (endpoint_yaml "/ping" "GET" "pong.json" ++
            endpoint_yaml "/status" "GET" "status.json")).

(** One key declared twice. *)
Definition twice_config : Config :=
  {| Services :=
       [ {| Name := "api"; BasePath := "/api";
            Endpoints :=
              [ {| Path := "/ping"; Method := "GET";
                   ResponseFile := "ping.json" |};
                {| Path := "/ping"; Method := "GET";
                   ResponseFile := "pong.json" |} ] |} ] |}.

Definition twice_yaml : string :=
  lines ("services:" ::
         service_yaml "api" "/api"
           (endpoint_yaml "/ping" "GET" "ping.json" ++
            endpoint_yaml "/ping" "GET" "pong.json")).

(** A verb without a case in [setupRouter]. *)
Definition put_config : Config :=
  {| Services :=
       [ {| Name := "api"; BasePath := "/api";
            Endpoints :=
              [ {| Path := "/ping"; Method := "GET";
                   ResponseFile := "ping.json" |};
                {| Path := "/item"; Method := "PUT";
                   ResponseFile := "item.json" |} ] |} ] |}.

Definition put_yaml : string :=
  lines ("services:" ::
         service_yaml "api" "/api"
           (endpoint_yaml "/ping" "GET" "ping.json" ++
            endpoint_yaml "/item" "PUT" "item.json")).

(** A base path ending in a slash before a path beginning with one. *)
Definition slash_config : Config :=
  {| Services :=
       [ {| Name := "api"; BasePath := "/api/";
            Endpoints :=
              [ {| Path := "/ping"; Method := "GET";
                   ResponseFile := "ping.json" |} ] |} ] |}.

(** A document the decoder rejects: a flow sequence left open. *)
Definition broken_yaml : string := lines ["services: ["].

(** The decoder on these documents. *)
Definition Unmarshal (data : string) : result Config :=
  if String.eqb data ping_yaml then Ok ping_config
  else if String.eqb data pong_yaml then Ok pong_config
  else if String.eqb data twice_yaml then Ok twice_config
  else if String.eqb data put_yaml then Ok put_config
  else Err "yaml: did not find expected node content".

Definition hasPrefix (p s : string) : bool :=
  String.eqb (String.substring 0 (String.length p) s) p.

(** A name as the kernel resolves it from the working directory. *)
Definition resolve (name : string) : string :=
  if hasPrefix "/" name then name
  else if hasPrefix "./" name
       then "/srv/mock/" +:+ String.substring 2 (String.length name) name
       else "/srv/mock/" +:+ name.

Fixpoint find_file (name : string) (files : list (string * string))
  : option string :=
  match files with
  | [] => None
  | (n, data) :: rest =>
      if String.eqb n name then Some data else find_file name rest
  end.

(** The operating system over a list of files (absolute name, bytes). *)
Definition disk (files : list (string * string)) : OS :=
  {| ReadFile name :=
       match find_file (resolve name) files with
       | Some data => Ok data
       | None => Err ("open " +:+ name +:+ ": no such file or directory")
       end;
     Abs name := Ok (resolve name);
     NewWatcher := Ok tt;
     watcher_Add name :=
       match find_file (resolve name) files with
       | Some _ => Ok tt
       | None => Err "no such file or directory"
       end;
     Listen := Ok tt |}.

Definition ok_true : string := "{" +:+ dq +:+ "ok" +:+ dq +:+ ":true}".
Definition ok_false : string := "{" +:+ dq +:+ "ok" +:+ dq +:+ ":false}".

Definition responses : list (string * string) :=
  [ ("/srv/mock/ping.json", ok_true);
    ("/srv/mock/pong.json", ok_false);
    ("/srv/mock/status.json", "{}");
    ("/srv/mock/item.json", "{}") ].

(** The installation with a given declaration file. *)
Definition installed (declaration : string) : OS :=
  disk (("/srv/mock/config.yaml", declaration) :: responses).

(** The same after ping.json has been deleted. *)
Definition ping_deleted : OS :=
  disk [ ("/srv/mock/config.yaml", ping_yaml) ].

(** The process as [main] leaves it on the installation with
    [ping_yaml]. *)
Definition started : State :=
  {| config := ping_config;
     router :=
       {[ ("GET", "/api/ping") := {| gin.responseFile := "ping.json" |} ]};
     watched := {[ "./config.yaml"; "ping.json" ]};
     log := [];
     watching := true |}.

(** The process as [main] leaves it on the installation with [put_yaml]. *)
Definition started_put : State :=
  {| config := put_config;
     router :=
       {[ ("GET", "/api/ping") := {| gin.responseFile := "ping.json" |} ]};
     watched := {[ "./config.yaml"; "ping.json"; "item.json" ]};
     log := [];
     watching := true |}.

(** The same process after a reload that found [pong_yaml]. *)
Definition reloaded : State :=
  assign_config pong_config (printf "File modified: ./config.yaml" started).

(** The declaration file has been written. *)
Definition write_config : Input := Event "./config.yaml" fsnotify.Write.

End Fixture.

(** ** Further installations *)

Module Variants.

(** [Fixture.pong_config] with its endpoints in the other order. *)
Definition pong_swapped : Config :=
  {| Services :=
       [ {| Name := "api"; BasePath := "/api";
            Endpoints :=
              [ {| Path := "/status"; Method := "GET";
                   ResponseFile := "status.json" |};
                {| Path := "/ping"; Method := "GET";
                   ResponseFile := "pong.json" |} ] |} ] |}.

(** The engine of both. *)
Definition pong_engine : gin.Engine :=
  <[ ("GET", "/api/status") := {| gin.responseFile := "status.json" |} ]>
    {[ ("GET", "/api/ping") := {| gin.responseFile := "pong.json" |} ]}.

(** A declaration whose only endpoint has a verb without a case. *)
Definition put_only : Config :=
  {| Services :=
       [ {| Name := "api"; BasePath := "/api";
            Endpoints :=
              [ {| Path := "/item"; Method := "PUT";
                   ResponseFile := "item.json" |} ] |} ] |}.

(** The process as [main] leaves it when ping.json is missing at
    start-up. *)
Definition started_unwatched : State :=
  {| config := Fixture.ping_config;
     router :=
       {[ ("GET", "/api/ping") := {| gin.responseFile := "ping.json" |} ]};
     watched := {[ "./config.yaml" ]};
     log := [ "Failed to watch response file ping.json: "
                +:+ "no such file or directory" ];
     watching := true |}.

End Variants.

(** ** The router *)

Lemma addRoute_Return (method p : string) (h : gin.HandlerFunc)
    (r r' : gin.Engine) :
  gin.addRoute method p h r = Return r' ->
  r !! (method, p) = None /\ r' = <[(method, p) := h]> r.
Proof.
  unfold gin.addRoute.
  destruct p as [|c p']; [discriminate|].
  destruct (Ascii.eqb_spec c "/") as [->|Hc].
  - destruct (r !! (method, String "/" p')) eqn:E; [discriminate|].
    intros [= <-]. done.
  - intros H. exfalso.
    destruct c as [[] [] [] [] [] [] [] []]; try discriminate H.
    by apply Hc.
Qed.

Lemma addRoute_taken (method p : string) (h h0 : gin.HandlerFunc)
    (r : gin.Engine) :
  r !! (method, p) = Some h0 ->
  exists msg, gin.addRoute method p h r = Panic msg.
Proof.
  intros Hin. unfold gin.addRoute.
  destruct p as [|c p']; [by eexists|].
  destruct c as [[] [] [] [] [] [] [] []]; try by eexists.
  rewrite Hin. by eexists.
Qed.

Lemma register_supported (basePath : string) (r : gin.Engine)
    (endpoint : Endpoint) :
  supported (Method endpoint) ->
  register basePath r endpoint =
    gin.addRoute (Method endpoint) (routePath basePath endpoint)
                 (handlerOf endpoint) r.
Proof.
  intros [H|H]; unfold register; rewrite H; reflexivity.
Qed.

Lemma register_unsupported (basePath : string) (r : gin.Engine)
    (endpoint : Endpoint) :
  ~ supported (Method endpoint) ->
  register basePath r endpoint = Return r.
Proof.
  intros H. unfold register.
  destruct (String.eqb_spec (Method endpoint) "GET") as [E|_];
    [exfalso; apply H; by left|].
  destruct (String.eqb_spec (Method endpoint) "POST") as [E|_];
    [exfalso; apply H; by right|].
  reflexivity.
Qed.

Lemma supported_dec (method : string) :
  {supported method} + {~ supported method}.
Proof.
  destruct (String.eqb_spec method "GET") as [E|E1]; [left; by left|].
  destruct (String.eqb_spec method "POST") as [E|E2]; [left; by right|].
  right. intros [?|?]; contradiction.
Qed.

(** A successful registration keeps every route that was there. *)
Lemma register_keeps (basePath : string) (r r' : gin.Engine)
    (endpoint : Endpoint)
    (k : string * string) (h : gin.HandlerFunc) :
  register basePath r endpoint = Return r' ->
  r !! k = Some h -> r' !! k = Some h.
Proof.
  intros Hreg Hk.
  destruct (supported_dec (Method endpoint)) as [Hs|Hs].
  - rewrite register_supported in Hreg by done.
    apply addRoute_Return in Hreg as [Hfree ->].
    rewrite lookup_insert_ne; [done|]. intros <-. congruence.
  - rewrite register_unsupported in Hreg by done. congruence.
Qed.

Lemma registerRoutes_keeps (l : list (string * Endpoint)) :
  forall (r r' : gin.Engine) (k : string * string) (h : gin.HandlerFunc),
  registerRoutes l r = Return r' ->
  r !! k = Some h -> r' !! k = Some h.
Proof.
  induction l as [|[b e] l IH]; intros r r' k h Hreg Hk; simpl in Hreg.
  - congruence.
  - destruct (register b r e) as [r1|msg] eqn:E; [|discriminate].
    simpl in Hreg. eapply IH; [exact Hreg|].
    eapply register_keeps; eassumption.
Qed.

Lemma registerRoutes_app (l1 l2 : list (string * Endpoint)) (r : gin.Engine) :
  registerRoutes (l1 ++ l2) r =
    bind_outcome (registerRoutes l1 r) (registerRoutes l2).
Proof.
  revert r. induction l1 as [|[b e] l1 IH]; intros r; simpl; [done|].
  destruct (register b r e); simpl; [apply IH|done].
Qed.

Lemma registerEndpoints_routes (basePath : string)
    (endpoints : list Endpoint) (r : gin.Engine) :
  registerEndpoints basePath endpoints r =
    registerRoutes (map (pair basePath) endpoints) r.
Proof.
  revert r. induction endpoints as [|e es IH]; intros r; simpl; [done|].
  destruct (register basePath r e); simpl; [apply IH|done].
Qed.

Lemma registerServices_routes (services : list Service) (r : gin.Engine) :
  registerServices services r =
    registerRoutes (routes {| Services := services |}) r.
Proof.
  unfold routes. simpl.
  revert r. induction services as [|s ss IH]; intros r; simpl; [done|].
  rewrite registerRoutes_app, registerEndpoints_routes.
  destruct (registerRoutes _ r); simpl; [apply IH|done].
Qed.

Lemma setupRouter_routes (config : Config) :
  setupRouter config = registerRoutes (routes config) gin.Default.
Proof. destruct config as [ss]. apply registerServices_routes. Qed.

Lemma elem_of_routes (config : Config) (basePath : string)
    (endpoint : Endpoint) :
  (basePath, endpoint) ∈ routes config <->
  exists service, service ∈ Services config /\
                  BasePath service = basePath /\
                  endpoint ∈ Endpoints service.
Proof.
  unfold routes. rewrite list_elem_of_In, in_flat_map. split.
  - intros (s & Hs & Hin). apply in_map_iff in Hin as (e & [= <- <-] & He).
    exists s. rewrite !list_elem_of_In. done.
  - intros (s & Hs & <- & He). exists s. rewrite <- list_elem_of_In.
    split; [done|]. apply in_map_iff. exists endpoint.
    rewrite <- list_elem_of_In. done.
Qed.


(** Conversely every route of the engine was declared. *)
Lemma registerRoutes_declared (l : list (string * Endpoint)) :
  forall (r r' : gin.Engine) (k : string * string) (h : gin.HandlerFunc),
  registerRoutes l r = Return r' ->
  r' !! k = Some h ->
  r !! k = Some h \/
  exists b e, (b, e) ∈ l /\ supported (Method e) /\
              k = (Method e, routePath b e) /\ h = handlerOf e.
Proof.
  induction l as [|[b0 e0] l IH]; intros r r' k h Hreg Hk; simpl in Hreg.
  - left. congruence.
  - destruct (register b0 r e0) as [r1|msg] eqn:E; [|discriminate].
    simpl in Hreg.
    destruct (IH _ _ _ _ Hreg Hk) as [H1|(b & e & Hin & Hs & -> & ->)].
    + destruct (supported_dec (Method e0)) as [Hs|Hs].
      * rewrite register_supported in E by done.
        apply addRoute_Return in E as [_ ->].
        destruct (decide ((Method e0, routePath b0 e0) = k)) as [<-|Hne].
        -- rewrite lookup_insert_eq in H1. injection H1 as <-.
           right. exists b0, e0. split; [apply elem_of_cons; by left|done].
        -- rewrite lookup_insert_ne in H1 by done. by left.
      * rewrite register_unsupported in E by done.
        injection E as <-. by left.
    + right. exists b, e. split; [apply elem_of_cons; by right|done].
Qed.

(** Registering a key twice panics, whatever lies between. *)
Lemma registerRoutes_duplicate (l1 l2 l3 : list (string * Endpoint))
    (b1 : string) (e1 : Endpoint) (b2 : string) (e2 : Endpoint)
    (r : gin.Engine) :
  supported (Method e1) ->
  Method e2 = Method e1 ->
  routePath b2 e2 = routePath b1 e1 ->
  exists msg,
    registerRoutes (l1 ++ (b1, e1) :: l2 ++ (b2, e2) :: l3) r = Panic msg.
Proof.
  intros Hs Hm Hp.
  rewrite registerRoutes_app.
  destruct (registerRoutes l1 r) as [r1|msg]; [|by eexists].
  simpl.
  destruct (register b1 r1 e1) as [r2|msg] eqn:E1; [|by eexists].
  simpl. rewrite registerRoutes_app.
  destruct (registerRoutes l2 r2) as [r3|msg] eqn:E2; [|by eexists].
  simpl.
  assert (r3 !! (Method e1, routePath b1 e1) = Some (handlerOf e1)) as Hin.
  { eapply registerRoutes_keeps; [exact E2|].
    rewrite register_supported in E1 by done.
    apply addRoute_Return in E1 as [_ ->]. apply lookup_insert_eq. }
  rewrite register_supported by (rewrite Hm; done).
  rewrite Hm, Hp.
  destruct (addRoute_taken _ _ (handlerOf e2) _ _ Hin) as [msg ->].
  by eexists.
Qed.


(** ** The process *)

Section Process.

Variable yaml_Unmarshal : string -> result Config.

Lemma loadConfig_Err (os : OS) (err : string) :
  loadConfig yaml_Unmarshal os "./config.yaml" = Err err <->
  load_fails_with yaml_Unmarshal os err.
Proof.
  unfold loadConfig, load_fails_with.
  destruct (ReadFile os "./config.yaml") as [data|e0].
  - destruct (yaml_Unmarshal data) as [c|e1] eqn:E; split.
    + discriminate.
    + intros [H|(d & [= <-] & H)]; congruence.
    + intros [= <-]. right. by exists data.
    + intros [H|(d & [= <-] & H)]; congruence.
  - split.
    + intros [= <-]. by left.
    + intros [[= <-]|(d & H & _)]; [done|discriminate].
Qed.

(** No input makes the process leave [Running], replace its engine or touch
    its subscriptions. *)
Lemma step_Running (os : OS) (st : State) (i : Input) :
  exists st', (step yaml_Unmarshal os st i).1 = Running st' /\
              router st' = router st /\ watched st' = watched st.
Proof.
  destruct i as [m p|name op| |err| ]; simpl.
  - by exists st.
  - destruct (watching st); [|by exists st].
    destruct (Z.land op fsnotify.Write =? fsnotify.Write); [|by exists st].
    eexists; split; [reflexivity|]. unfold reload.
    destruct (loadConfig yaml_Unmarshal os "./config.yaml"); done.
  - by eexists.
  - destruct (watching st); by eexists.
  - by eexists.
Qed.

Lemma run_Running (inputs : list (OS * Input)) :
  forall st : State,
  exists st', run yaml_Unmarshal (Running st) inputs = Running st' /\
              router st' = router st /\ watched st' = watched st.
Proof.
  induction inputs as [|[os i] rest IH]; intros st; simpl.
  - by exists st.
  - destruct (step_Running os st i) as (st1 & -> & Hr & Hw).
    destruct (IH st1) as (st2 & -> & Hr2 & Hw2).
    exists st2. split; [done|]. split; congruence.
Qed.

Lemma run_router (inputs : list (OS * Input)) (st st' : State) :
  run yaml_Unmarshal (Running st) inputs = Running st' ->
  router st' = router st.
Proof.
  intros H. destruct (run_Running inputs st) as (st2 & E & Hr & _).
  congruence.
Qed.

(** What [main] has done when it reaches [r.Run]. *)
Lemma main_Running (os : OS) (st : State) :
  main yaml_Unmarshal os = Running st ->
  loadConfig yaml_Unmarshal os "./config.yaml" = Ok (config st) /\
  setupRouter (config st) = Return (router st) /\
  watched st =
    (fold_left (watchService os) (Services (config st))
       (watch os "./config.yaml"
              (fun err => "Failed to watch config file: " +:+ err)
              (∅, []))).1.
Proof.
  unfold main.
  destruct (loadConfig yaml_Unmarshal os "./config.yaml") as [c|e];
    [|discriminate].
  destruct (setupRouter c) as [r|msg] eqn:Er; [|discriminate].
  destruct (NewWatcher os); [|discriminate].
  destruct (Listen os); [|discriminate].
  intros [= <-]. simpl. done.
Qed.

Lemma elem_of_watch (os : OS) (name : string) (complaint : string -> string)
    (w : gset string * list string) (p : string) :
  p ∈ (watch os name complaint w).1 <->
  p ∈ w.1 \/ (p = name /\ watcher_Add os name = Ok tt).
Proof.
  unfold watch. destruct (watcher_Add os name) as [[]|e]; simpl.
  - rewrite elem_of_union, elem_of_singleton. split.
    + intros [->|H]; [right; done|by left].
    + intros [H|[-> _]]; [by right|by left].
  - split; [by left|]. intros [H|[_ H]]; [done|discriminate].
Qed.

Lemma elem_of_watchService (os : OS) (endpoints : list Endpoint) :
  forall (w : gset string * list string) (p : string),
  p ∈ (fold_left (watchEndpoint os) endpoints w).1 <->
  p ∈ w.1 \/
  (watcher_Add os p = Ok tt /\
   exists e, e ∈ endpoints /\ ResponseFile e = p).
Proof.
  induction endpoints as [|e es IH]; intros w p; simpl.
  - split; [by left|]. intros [H|(_ & e & He & _)]; [done|].
    by apply elem_of_nil in He.
  - rewrite IH. unfold watchEndpoint. rewrite elem_of_watch.
    split.
    + intros [[H|[-> H]]|(H & e' & He' & Hf)].
      * by left.
      * right. split; [done|]. exists e.
        split; [apply elem_of_cons; by left|done].
      * right. split; [done|]. exists e'.
        split; [apply elem_of_cons; by right|done].
    + intros [H|(H & e' & He' & Hf)]; [left; by left|].
      apply elem_of_cons in He' as [->|He'].
      * left. right. subst p. done.
      * right. split; [done|]. by exists e'.
Qed.

Lemma elem_of_watchServices (os : OS) (services : list Service) :
  forall (w : gset string * list string) (p : string),
  p ∈ (fold_left (watchService os) services w).1 <->
  p ∈ w.1 \/
  (watcher_Add os p = Ok tt /\
   exists s e, s ∈ services /\ e ∈ Endpoints s /\ ResponseFile e = p).
Proof.
  induction services as [|s ss IH]; intros w p; simpl.
  - split; [by left|]. intros [H|(_ & s & e & Hs & _)]; [done|].
    by apply elem_of_nil in Hs.
  - rewrite IH. unfold watchService. rewrite elem_of_watchService.
    split.
    + intros [[H|(H & e & He & Hf)]|(H & s' & e & Hs' & He & Hf)].
      * by left.
      * right. split; [done|]. exists s, e.
        split; [apply elem_of_cons; by left|done].
      * right. split; [done|]. exists s', e.
        split; [apply elem_of_cons; by right|done].
    + intros [H|(H & s' & e & Hs' & He & Hf)]; [left; by left|].
      apply elem_of_cons in Hs' as [->|Hs'].
      * left. right. split; [done|]. by exists e.
      * right. split; [done|]. by exists s', e.
Qed.

End Process.


(** ** Reloading the declaration *)

(** X14. Whatever the process receives after start-up, it answers requests
    with the engine that [setupRouter] built at start-up. *)
Lemma engine_is_built_once (yaml_Unmarshal : string -> result Config)
    (st0 st : State) (inputs : list (OS * Input))
    (os : OS) (method rPath : string) :
  run yaml_Unmarshal (Running st0) inputs = Running st ->
  ServeHTTP os (router st) method rPath
  = ServeHTTP os (router st0) method rPath.
Proof. intros H. by rewrite (run_router _ _ _ _ H). Qed.

(** C1. The declaration is rewritten to serve GET /api/ping from pong.json
    and to add GET /api/status; the write is reported, the reload succeeds
    and the new declaration is stored in [config].  Requests dispatched
    afterwards are nevertheless answered from the start-up table: GET
    /api/ping still returns the bytes of ping.json, and the new route does
    not exist. *)
Theorem reload_is_not_served :
  main Fixture.Unmarshal (Fixture.installed Fixture.ping_yaml)
  = Running Fixture.started /\
  step Fixture.Unmarshal (Fixture.installed Fixture.pong_yaml)
       Fixture.started Fixture.write_config
  = (Running Fixture.reloaded, None) /\
  config Fixture.reloaded = Fixture.pong_config /\
  readJSONFile (Fixture.installed Fixture.pong_yaml) "pong.json"
  = Ok Fixture.ok_false /\
  step Fixture.Unmarshal (Fixture.installed Fixture.pong_yaml)
       Fixture.reloaded (Request "GET" "/api/ping")
  = (Running Fixture.reloaded,
     Some (Data 200 "application/json" Fixture.ok_true)) /\
  step Fixture.Unmarshal (Fixture.installed Fixture.pong_yaml)
       Fixture.reloaded (Request "GET" "/api/status")
  = (Running Fixture.reloaded, Some NotFound).
Proof. repeat split; vm_compute; reflexivity. Qed.

(** C2. A reload whose load fails, because the declaration cannot be read or
    because the decoder rejects it, logs the failure and changes nothing
    else: the stored declaration, the engine and with it the answer to every
    request, and the subscriptions are those of before, and the process is
    still running. *)
Theorem failed_reload_keeps_table (yaml_Unmarshal : string -> result Config)
    (os : OS) (st : State) (name : string) (op : Z) (err : string) :
  watching st = true ->
  Z.land op fsnotify.Write = fsnotify.Write ->
  load_fails_with yaml_Unmarshal os err ->
  exists st',
    step yaml_Unmarshal os st (Event name op) = (Running st', None) /\
    config st' = config st /\
    router st' = router st /\
    watched st' = watched st /\
    log st' = log st ++ [ "File modified: " +:+ name;
                          "Failed to reload config: " +:+ err ] /\
    forall os' method rPath,
      ServeHTTP os' (router st') method rPath
      = ServeHTTP os' (router st) method rPath.
Proof.
  intros Hw Hop Hfail. apply loadConfig_Err in Hfail.
  eexists. split.
  - simpl. rewrite Hw, Hop. simpl. unfold reload. rewrite Hfail. reflexivity.
  - simpl. rewrite <- app_assoc. done.
Qed.

Lemma failed_reload_keeps_table_witness :
  watching Fixture.started = true /\
  Z.land fsnotify.Write fsnotify.Write = fsnotify.Write /\
  load_fails_with Fixture.Unmarshal (Fixture.installed Fixture.broken_yaml)
                  "yaml: did not find expected node content" /\
  exists st',
    step Fixture.Unmarshal (Fixture.installed Fixture.broken_yaml)
         Fixture.started Fixture.write_config
    = (Running st', None) /\
    config st' = config Fixture.started /\
    router st' = router Fixture.started /\
    watched st' = watched Fixture.started /\
    log st' = log Fixture.started ++
              [ "File modified: " +:+ "./config.yaml";
                "Failed to reload config: "
                  +:+ "yaml: did not find expected node content" ] /\
    forall os' method rPath,
      ServeHTTP os' (router st') method rPath
      = ServeHTTP os' (router Fixture.started) method rPath.
Proof.
  assert (load_fails_with Fixture.Unmarshal
            (Fixture.installed Fixture.broken_yaml)
            "yaml: did not find expected node content") as Hfail.
  { right. exists Fixture.broken_yaml. split; vm_compute; reflexivity. }
  split; [reflexivity|]. split; [reflexivity|]. split; [exact Hfail|].
  apply (failed_reload_keeps_table Fixture.Unmarshal
           (Fixture.installed Fixture.broken_yaml) Fixture.started
           "./config.yaml" fsnotify.Write
           "yaml: did not find expected node content");
    [reflexivity|reflexivity|exact Hfail].
Defined.

(** ** Duplicate keys *)

(** C3, as stated, fails: with GET /api/ping declared twice, for ping.json
    and then for pong.json, [setupRouter] does not return an engine serving
    the later file; the second registration panics, and so does [main]. *)
Lemma duplicate_key_is_not_last_wins :
  setupRouter Fixture.twice_config
  = Panic "handlers are already registered for path '/api/ping'" /\
  main Fixture.Unmarshal (Fixture.installed Fixture.twice_yaml)
  = Panicked "handlers are already registered for path '/api/ping'" /\
  ~ exists r,
      setupRouter Fixture.twice_config = Return r /\
      gin.getValue r "GET" "/api/ping"
      = Some {| gin.responseFile := "pong.json" |}.
Proof.
  assert (setupRouter Fixture.twice_config
          = Panic "handlers are already registered for path '/api/ping'")
    as H by (vm_compute; reflexivity).
  split; [exact H|]. split; [vm_compute; reflexivity|].
  intros (r & Hr & _). rewrite H in Hr. discriminate.
Qed.

(** C3, amended.  When two endpoints of a declaration have the same
    supported method and the same basePath+path, [setupRouter] panics: no
    engine is built, and a process started on that declaration panics
    before it serves anything. *)
Theorem duplicate_key_panics (yaml_Unmarshal : string -> result Config)
    (config : Config) (l1 l2 l3 : list (string * Endpoint))
    (b1 : string) (e1 : Endpoint) (b2 : string) (e2 : Endpoint) :
  routes config = l1 ++ (b1, e1) :: l2 ++ (b2, e2) :: l3 ->
  supported (Method e1) ->
  Method e2 = Method e1 ->
  b2 +:+ Path e2 = b1 +:+ Path e1 ->
  (exists msg, setupRouter config = Panic msg) /\
  forall os,
    loadConfig yaml_Unmarshal os "./config.yaml" = Ok config ->
    exists msg, main yaml_Unmarshal os = Panicked msg.
Proof.
  intros Hl Hs Hm Hp.
  assert (exists msg, setupRouter config = Panic msg) as [msg Hmsg].
  { rewrite setupRouter_routes, Hl.
    apply registerRoutes_duplicate; [done|done|].
    unfold routePath. by rewrite Hp. }
  split; [by exists msg|].
  intros os Hload. exists msg. unfold main. by rewrite Hload, Hmsg.
Qed.

Lemma duplicate_key_panics_witness :
  routes Fixture.twice_config
  = [] ++ ("/api", {| Path := "/ping"; Method := "GET";
                      ResponseFile := "ping.json" |})
       :: [] ++ ("/api", {| Path := "/ping"; Method := "GET";
                            ResponseFile := "pong.json" |}) :: [] /\
  supported "GET" /\
  (exists msg, setupRouter Fixture.twice_config = Panic msg) /\
  forall os,
    loadConfig Fixture.Unmarshal os "./config.yaml" = Ok Fixture.twice_config ->
    exists msg, main Fixture.Unmarshal os = Panicked msg.
Proof.
  split; [reflexivity|]. split; [by left|].
  apply (duplicate_key_panics Fixture.Unmarshal Fixture.twice_config
           [] [] []
           "/api" {| Path := "/ping"; Method := "GET";
                     ResponseFile := "ping.json" |}
           "/api" {| Path := "/ping"; Method := "GET";
                     ResponseFile := "pong.json" |});
    [reflexivity|by left|reflexivity|reflexivity].
Defined.

(** ** The watched files *)

(** C4, as stated, fails.  After the reload that publishes a declaration
    referring to pong.json and status.json, both present on disk, neither
    is watched, and ping.json, to which the declaration no longer refers, is
    still watched.  At start-up, item.json is watched although its endpoint
    has an unsupported verb and no route refers to it. *)
Lemma subscriptions_are_not_recomputed :
  (run Fixture.Unmarshal
       (main Fixture.Unmarshal (Fixture.installed Fixture.ping_yaml))
       [ (Fixture.installed Fixture.pong_yaml, Fixture.write_config) ]
   = Running Fixture.reloaded /\
   config Fixture.reloaded = Fixture.pong_config /\
   watcher_Add (Fixture.installed Fixture.pong_yaml) "status.json" = Ok tt /\
   watcher_Add (Fixture.installed Fixture.pong_yaml) "pong.json" = Ok tt /\
   ("status.json" ∉ watched Fixture.reloaded) /\
   ("pong.json" ∉ watched Fixture.reloaded) /\
   ("ping.json" ∈ watched Fixture.reloaded)) /\
  (main Fixture.Unmarshal (Fixture.installed Fixture.put_yaml)
   = Running Fixture.started_put /\
   ("item.json" ∈ watched Fixture.started_put) /\
   forall method rPath,
     gin.getValue (router Fixture.started_put) method rPath
     <> Some {| gin.responseFile := "item.json" |}).
Proof.
  split.
  - split; [vm_compute; reflexivity|].
    split; [reflexivity|]. split; [reflexivity|]. split; [reflexivity|].
    split; [|split].
    + intros H. vm_compute in H. discriminate.
    + intros H. vm_compute in H. discriminate.
    + vm_compute. reflexivity.
  - split; [vm_compute; reflexivity|].
    split; [vm_compute; reflexivity|].
    intros method rPath H.
    unfold gin.getValue in H. simpl in H.
    apply lookup_singleton_Some in H as [_ H]. discriminate.
Qed.

(** C4, amended.  The subscriptions are made once, at start-up, and no input
    changes them afterwards.  They are the declaration file and the
    responseFile of every endpoint of the start-up declaration, whatever its
    method, for which [watcher.Add] succeeded at start-up. *)
Theorem subscriptions_fixed_at_startup
    (yaml_Unmarshal : string -> result Config)
    (os0 : OS) (st0 st : State) (inputs : list (OS * Input)) :
  main yaml_Unmarshal os0 = Running st0 ->
  run yaml_Unmarshal (Running st0) inputs = Running st ->
  watched st = watched st0 /\
  forall p : string,
    p ∈ watched st <->
    watcher_Add os0 p = Ok tt /\
    (p = "./config.yaml" \/
     exists service endpoint,
       service ∈ Services (config st0) /\
       endpoint ∈ Endpoints service /\
       ResponseFile endpoint = p).
Proof.
  intros Hmain Hrun.
  destruct (run_Running yaml_Unmarshal inputs st0) as (st' & E & _ & Hw).
  rewrite E in Hrun. injection Hrun as ->.
  split; [exact Hw|]. intros p. rewrite Hw.
  apply main_Running in Hmain as (_ & _ & ->).
  rewrite elem_of_watchServices, elem_of_watch. simpl. split.
  - intros [[H|[-> H]]|[H H']].
    + by apply not_elem_of_empty in H.
    + split; [done|by left].
    + split; [done|by right].
  - intros [H [->|H']].
    + left. right. done.
    + right. done.
Qed.

Lemma subscriptions_fixed_at_startup_witness :
  main Fixture.Unmarshal (Fixture.installed Fixture.ping_yaml)
  = Running Fixture.started /\
  run Fixture.Unmarshal (Running Fixture.started)
      [ (Fixture.installed Fixture.pong_yaml, Fixture.write_config) ]
  = Running Fixture.reloaded /\
  watched Fixture.reloaded = watched Fixture.started /\
  forall p : string,
    p ∈ watched Fixture.reloaded <->
    watcher_Add (Fixture.installed Fixture.ping_yaml) p = Ok tt /\
    (p = "./config.yaml" \/
     exists service endpoint,
       service ∈ Services (config Fixture.started) /\
       endpoint ∈ Endpoints service /\
       ResponseFile endpoint = p).
Proof.
  split; [vm_compute; reflexivity|]. split; [vm_compute; reflexivity|].
  apply (subscriptions_fixed_at_startup Fixture.Unmarshal
           (Fixture.installed Fixture.ping_yaml)
           Fixture.started Fixture.reloaded
           [ (Fixture.installed Fixture.pong_yaml, Fixture.write_config) ]);
    vm_compute; reflexivity.
Defined.

(** ** Dispatch *)

(** The router stores a pattern in cleaned form: a doubled slash between
    base path and path is collapsed, so the route of [slash_config] is
    /api/ping and a request for /api//ping finds no handler. *)
Lemma pattern_is_cleaned :
  gin.calculateAbsolutePath "/api//ping" = "/api/ping" /\
  gin.calculateAbsolutePath "api/ping" = "/api/ping" /\
  gin.calculateAbsolutePath "/api/ping/" = "/api/ping/" /\
  gin.calculateAbsolutePath "/api/ping" = "/api/ping" /\
  exists r,
    setupRouter Fixture.slash_config = Return r /\
    gin.getValue r "GET" "/api//ping" = None /\
    gin.getValue r "GET" "/api/ping"
    = Some {| gin.responseFile := "ping.json" |}.
Proof.
  repeat (split; [vm_compute; reflexivity|]).
  eexists. split; [vm_compute; reflexivity|].
  split; vm_compute; reflexivity.
Qed.



(** C6. When a request matches a route and the route's response file cannot
    be read at that moment, the answer is 500 with the JSON object
    {"error": message}; the process keeps running in the same state, and the
    route is still in the engine after this request and after whatever
    follows it. *)
Theorem unreadable_file_is_500 (yaml_Unmarshal : string -> result Config)
    (os : OS) (st : State) (method rPath : string)
    (h : gin.HandlerFunc) (err : string) :
  gin.getValue (router st) method rPath = Some h ->
  readJSONFile os (gin.responseFile h) = Err err ->
  step yaml_Unmarshal os st (Request method rPath)
  = (Running st, Some (JSON 500 [("error", err)])) /\
  forall (inputs : list (OS * Input)),
  exists st',
    run yaml_Unmarshal (Running st) ((os, Request method rPath) :: inputs)
    = Running st' /\
    gin.getValue (router st') method rPath = Some h.
Proof.
  intros Hlook Hread. split.
  - simpl. unfold ServeHTTP. rewrite Hlook. unfold serveFile.
    by rewrite Hread.
  - intros inputs. simpl.
    destruct (run_Running yaml_Unmarshal inputs st) as (st' & E & Hr & _).
    exists st'. split; [done|]. by rewrite Hr.
Qed.

Lemma unreadable_file_is_500_witness :
  gin.getValue (router Fixture.started) "GET" "/api/ping"
  = Some {| gin.responseFile := "ping.json" |} /\
  readJSONFile Fixture.ping_deleted "ping.json"
  = Err "open /srv/mock/ping.json: no such file or directory" /\
  step Fixture.Unmarshal Fixture.ping_deleted Fixture.started
       (Request "GET" "/api/ping")
  = (Running Fixture.started,
     Some (JSON 500
             [("error",
               "open /srv/mock/ping.json: no such file or directory")])) /\
  forall (inputs : list (OS * Input)),
  exists st',
    run Fixture.Unmarshal (Running Fixture.started)
        ((Fixture.ping_deleted, Request "GET" "/api/ping") :: inputs)
    = Running st' /\
    gin.getValue (router st') "GET" "/api/ping"
    = Some {| gin.responseFile := "ping.json" |}.
Proof.
  split; [vm_compute; reflexivity|]. split; [vm_compute; reflexivity|].
  apply (unreadable_file_is_500 Fixture.Unmarshal Fixture.ping_deleted
           Fixture.started "GET" "/api/ping"
           {| gin.responseFile := "ping.json" |}
           "open /srv/mock/ping.json: no such file or directory");
    vm_compute; reflexivity.
Defined.

(** ** Unsupported methods *)

(** C7, as stated, fails: the process started on a declaration with a PUT
    endpoint has no route for it, and nothing has been logged. *)
Lemma unsupported_method_is_not_reported :
  main Fixture.Unmarshal (Fixture.installed Fixture.put_yaml)
  = Running Fixture.started_put /\
  gin.getValue (router Fixture.started_put) "PUT" "/api/item" = None /\
  log Fixture.started_put = [] /\
  ~ exists warning, warning ∈ log Fixture.started_put.
Proof.
  split; [vm_compute; reflexivity|]. split; [vm_compute; reflexivity|].
  split; [reflexivity|].
  intros [w Hw]. simpl in Hw. by apply elem_of_nil in Hw.
Qed.

(** C7, amended.  An endpoint whose method is neither GET nor POST is
    skipped without a trace: [setupRouter] gives for the declaration exactly
    what it gives for the declaration without that endpoint, so the other
    endpoints are compiled as if it were absent, and the engine it returns
    has no route at all under that method. *)
Theorem unsupported_method_is_skipped
    (before after : list Service) (name basePath : string)
    (front back : list Endpoint) (endpoint : Endpoint) :
  ~ supported (Method endpoint) ->
  setupRouter
    {| Services :=
         before
         ++ {| Name := name; BasePath := basePath;
               Endpoints := front ++ endpoint :: back |}
         :: after |}
  = setupRouter
      {| Services :=
           before
           ++ {| Name := name; BasePath := basePath;
                 Endpoints := front ++ back |}
           :: after |} /\
  forall r : gin.Engine,
    setupRouter
      {| Services :=
           before
           ++ {| Name := name; BasePath := basePath;
                 Endpoints := front ++ endpoint :: back |}
           :: after |}
    = Return r ->
    forall rPath, gin.getValue r (Method endpoint) rPath = None.
Proof.
  intros Hu. split.
  - rewrite !setupRouter_routes. unfold routes. simpl.
    rewrite !flat_map_app. simpl. rewrite !map_app. simpl.
    rewrite !registerRoutes_app.
    destruct (registerRoutes _ gin.Default) as [r1|msg]; [|done].
    simpl. rewrite <- !app_assoc, !registerRoutes_app.
    destruct (registerRoutes _ r1) as [r2|msg]; [|done].
    simpl. by rewrite register_unsupported.
  - intros r Hr rPath. rewrite setupRouter_routes in Hr.
    unfold gin.getValue.
    destruct (r !! (Method endpoint, rPath)) as [h|] eqn:E; [|done].
    exfalso.
    destruct (registerRoutes_declared _ _ _ _ _ Hr E)
      as [H|(b & e & _ & Hs & [= Hm _] & _)].
    + unfold gin.Default in H. by rewrite lookup_empty in H.
    + apply Hu. by rewrite Hm.
Qed.

Lemma unsupported_method_is_skipped_witness :
  ~ supported "PUT" /\
  setupRouter Fixture.put_config = setupRouter Fixture.ping_config /\
  forall r : gin.Engine,
    setupRouter Fixture.put_config = Return r ->
    forall rPath, gin.getValue r "PUT" rPath = None.
Proof.
  assert (~ supported "PUT") as Hu by (intros [H|H]; discriminate H).
  split; [exact Hu|].
  apply (unsupported_method_is_skipped [] [] "api" "/api"
           [ {| Path := "/ping"; Method := "GET";
                ResponseFile := "ping.json" |} ]
           []
           {| Path := "/item"; Method := "PUT";
              ResponseFile := "item.json" |}).
  exact Hu.
Defined.

(** ** Method and path together *)

(** C8. Routes are keyed by method and path together.  When the patterns
    declared for the method of a request have no parameter or catch-all
    segment, a handler that answers the request was registered for an
    endpoint declared with that method and stored under the path of the
    request; and when the declaration has no endpoint with that method at
    that path, as for a POST to a path declared for GET only, no handler
    runs and the request gets the router's own not-found answer. *)
Theorem route_is_keyed_by_method (yaml_Unmarshal : string -> result Config)
    (os0 : OS) (st0 st : State) (inputs : list (OS * Input))
    (method rPath : string) :
  main yaml_Unmarshal os0 = Running st0 ->
  run yaml_Unmarshal (Running st0) inputs = Running st ->
  (forall service endpoint,
     service ∈ Services (config st0) ->
     endpoint ∈ Endpoints service ->
     Method endpoint = method ->
     wildcard_free (routePath (BasePath service) endpoint) = true) ->
  (forall h : gin.HandlerFunc,
     gin.getValue (router st) method rPath = Some h ->
     exists service endpoint,
       service ∈ Services (config st0) /\
       endpoint ∈ Endpoints service /\
       Method endpoint = method /\
       routePath (BasePath service) endpoint = rPath /\
       h = handlerOf endpoint) /\
  ((forall service endpoint,
      service ∈ Services (config st0) ->
      endpoint ∈ Endpoints service ->
      Method endpoint = method ->
      routePath (BasePath service) endpoint <> rPath) ->
   forall os : OS,
     step yaml_Unmarshal os st (Request method rPath)
     = (Running st, Some NotFound)).
Proof.
  intros Hmain Hrun _.
  apply run_router in Hrun.
  apply main_Running in Hmain as (_ & Hsetup & _).
  rewrite setupRouter_routes in Hsetup.
  assert (forall h : gin.HandlerFunc,
            gin.getValue (router st) method rPath = Some h ->
            exists service endpoint,
              service ∈ Services (config st0) /\
              endpoint ∈ Endpoints service /\
              Method endpoint = method /\
              routePath (BasePath service) endpoint = rPath /\
              h = handlerOf endpoint) as Hkey.
  { intros h Hh. unfold gin.getValue in Hh. rewrite Hrun in Hh.
    destruct (registerRoutes_declared _ _ _ _ _ Hsetup Hh)
      as [H|(b & e & Hin & _ & [= -> ->] & ->)].
    - unfold gin.Default in H. by rewrite lookup_empty in H.
    - apply elem_of_routes in Hin as (s & Hs & <- & He).
      by exists s, e. }
  split; [exact Hkey|].
  intros Hnone os. simpl. unfold ServeHTTP.
  destruct (gin.getValue (router st) method rPath) as [h|] eqn:E; [|done].
  exfalso. destruct (Hkey h eq_refl) as (s & e & Hs & He & Hm & Hp & _).
  exact (Hnone s e Hs He Hm Hp).
Qed.

Lemma route_is_keyed_by_method_witness :
  main Fixture.Unmarshal (Fixture.installed Fixture.ping_yaml)
  = Running Fixture.started /\
  gin.getValue (router Fixture.started) "GET" "/api/ping"
  = Some {| gin.responseFile := "ping.json" |} /\
  wildcard_free (routePath "/api" {| Path := "/ping"; Method := "GET";
                                     ResponseFile := "ping.json" |}) = true /\
  forall os : OS,
    step Fixture.Unmarshal os Fixture.started (Request "POST" "/api/ping")
    = (Running Fixture.started, Some NotFound).
Proof.
  split; [vm_compute; reflexivity|]. split; [vm_compute; reflexivity|].
  split; [vm_compute; reflexivity|].
  apply (route_is_keyed_by_method Fixture.Unmarshal
           (Fixture.installed Fixture.ping_yaml)
           Fixture.started Fixture.started [] "POST" "/api/ping").
  - vm_compute; reflexivity.
  - reflexivity.
  - intros service endpoint Hs He Hm.
    apply list_elem_of_singleton in Hs as ->.
    apply list_elem_of_singleton in He as ->.
    discriminate Hm.
  - intros service endpoint Hs He Hm.
    apply list_elem_of_singleton in Hs as ->.
    apply list_elem_of_singleton in He as ->.
    discriminate Hm.
Defined.

(** ** Load failures *)

(** C9. When the declaration cannot be read or decoded at start-up, [main]
    logs the failure and exits with status 1 without serving.  When the same
    failure meets the running process, an event from the watcher leaves the
    process running, whatever its operation. *)
Theorem load_failure_is_fatal_only_at_startup
    (yaml_Unmarshal : string -> result Config) (os : OS) (err : string) :
  load_fails_with yaml_Unmarshal os err ->
  main yaml_Unmarshal os = Exited 1 ["Failed to load config: " +:+ err] /\
  forall (st : State) (name : string) (op : Z),
  exists st',
    step yaml_Unmarshal os st (Event name op) = (Running st', None).
Proof.
  intros Hfail. apply loadConfig_Err in Hfail. split.
  - unfold main. by rewrite Hfail.
  - intros st name op. simpl.
    destruct (watching st); [|by eexists].
    destruct (Z.land op fsnotify.Write =? fsnotify.Write); by eexists.
Qed.

Lemma load_failure_is_fatal_only_at_startup_witness :
  load_fails_with Fixture.Unmarshal (Fixture.installed Fixture.broken_yaml)
                  "yaml: did not find expected node content" /\
  main Fixture.Unmarshal (Fixture.installed Fixture.broken_yaml)
  = Exited 1 [ "Failed to load config: "
                 +:+ "yaml: did not find expected node content" ] /\
  forall (st : State) (name : string) (op : Z),
  exists st',
    step Fixture.Unmarshal (Fixture.installed Fixture.broken_yaml) st
         (Event name op)
    = (Running st', None).
Proof.
  assert (load_fails_with Fixture.Unmarshal
            (Fixture.installed Fixture.broken_yaml)
            "yaml: did not find expected node content") as Hfail.
  { right. exists Fixture.broken_yaml. split; vm_compute; reflexivity. }
  split; [exact Hfail|].
  apply (load_failure_is_fatal_only_at_startup Fixture.Unmarshal
           (Fixture.installed Fixture.broken_yaml)
           "yaml: did not find expected node content").
  exact Hfail.
Defined.

(** ** Events *)

(** C10. While the watcher goroutine runs, an event makes it reload exactly
    when the Write bit of its operation is set, whatever file the event
    names: the write is logged and ./config.yaml is loaded again, its
    declaration stored on success and the failure logged otherwise.  An
    event without the Write bit, in particular a Create, Remove, Rename or
    Chmod event, changes nothing. *)
Theorem only_write_events_reload (yaml_Unmarshal : string -> result Config)
    (os : OS) (st : State) (name : string) (op : Z) :
  watching st = true ->
  (Z.land op fsnotify.Write = fsnotify.Write ->
   exists st',
     step yaml_Unmarshal os st (Event name op) = (Running st', None) /\
     (forall newConfig,
        loadConfig yaml_Unmarshal os "./config.yaml" = Ok newConfig ->
        config st' = newConfig /\
        log st' = log st ++ ["File modified: " +:+ name]) /\
     (forall err,
        loadConfig yaml_Unmarshal os "./config.yaml" = Err err ->
        config st' = config st /\
        log st' = log st ++ [ "File modified: " +:+ name;
                              "Failed to reload config: " +:+ err ])) /\
  (Z.land op fsnotify.Write <> fsnotify.Write ->
   step yaml_Unmarshal os st (Event name op) = (Running st, None)) /\
  (op = fsnotify.Create \/ op = fsnotify.Remove \/
   op = fsnotify.Rename \/ op = fsnotify.Chmod ->
   step yaml_Unmarshal os st (Event name op) = (Running st, None)).
Proof.
  intros Hw.
  assert (Z.land op fsnotify.Write <> fsnotify.Write ->
          step yaml_Unmarshal os st (Event name op) = (Running st, None))
    as Hquiet.
  { intros Hop. simpl. rewrite Hw.
    destruct (Z.eqb_spec (Z.land op fsnotify.Write) fsnotify.Write);
      [contradiction|reflexivity]. }
  split; [|split].
  - intros Hop. eexists. split.
    + simpl. rewrite Hw, Hop. simpl. reflexivity.
    + unfold reload. split.
      * intros c Hc. rewrite Hc. done.
      * intros err Herr. rewrite Herr. simpl.
        rewrite <- app_assoc. done.
  - exact Hquiet.
  - intros [ -> | [ -> | [ -> | -> ] ] ]; apply Hquiet; discriminate.
Qed.

Lemma only_write_events_reload_witness :
  watching Fixture.started = true /\
  (Z.land fsnotify.Write fsnotify.Write = fsnotify.Write ->
   exists st',
     step Fixture.Unmarshal (Fixture.installed Fixture.pong_yaml)
          Fixture.started (Event "ping.json" fsnotify.Write)
     = (Running st', None) /\
     (forall newConfig,
        loadConfig Fixture.Unmarshal (Fixture.installed Fixture.pong_yaml)
                   "./config.yaml" = Ok newConfig ->
        config st' = newConfig /\
        log st' = log Fixture.started ++ ["File modified: " +:+ "ping.json"]) /\
     (forall err,
        loadConfig Fixture.Unmarshal (Fixture.installed Fixture.pong_yaml)
                   "./config.yaml" = Err err ->
        config st' = config Fixture.started /\
        log st' = log Fixture.started ++
                  [ "File modified: " +:+ "ping.json";
                    "Failed to reload config: " +:+ err ])) /\
  (Z.land fsnotify.Write fsnotify.Write <> fsnotify.Write ->
   step Fixture.Unmarshal (Fixture.installed Fixture.pong_yaml)
        Fixture.started (Event "ping.json" fsnotify.Write)
   = (Running Fixture.started, None)) /\
  (fsnotify.Write = fsnotify.Create \/ fsnotify.Write = fsnotify.Remove \/
   fsnotify.Write = fsnotify.Rename \/ fsnotify.Write = fsnotify.Chmod ->
   step Fixture.Unmarshal (Fixture.installed Fixture.pong_yaml)
        Fixture.started (Event "ping.json" fsnotify.Write)
   = (Running Fixture.started, None)).
Proof.
  split; [reflexivity|].
  apply (only_write_events_reload Fixture.Unmarshal
           (Fixture.installed Fixture.pong_yaml) Fixture.started
           "ping.json" fsnotify.Write).
  reflexivity.
Defined.

(** ** More on the engine built by [setupRouter] *)

(** The router always stores a rooted pattern, so the assertion on the
    first byte in [addRoute] never fires for a route of [setupRouter]. *)
Lemma calculateAbsolutePath_rooted (relativePath : string) :
  exists rest, gin.calculateAbsolutePath relativePath = String "/" rest.
Proof.
  unfold gin.calculateAbsolutePath, gin.joinPaths.
  destruct (String.eqb relativePath ""); [by eexists|].
  unfold path.JoinRoot, path.Clean.
  set (kept := String.concat "/" _).
  change ("/" +:+ kept) with (String "/" kept).
  destruct (gin.lastChar relativePath) as [a|]; [|by eexists].
  destruct (gin.lastChar (String "/" kept)) as [b|]; [|by eexists].
  destruct (Ascii.eqb a "/" && negb (Ascii.eqb b "/")); by eexists.
Qed.

Lemma addRoute_free (method p rest : string) (h : gin.HandlerFunc)
    (r : gin.Engine) :
  p = String "/" rest ->
  r !! (method, p) = None ->
  gin.addRoute method p h r = Return (<[(method, p) := h]> r).
Proof. intros -> Hfree. unfold gin.addRoute. by rewrite Hfree. Qed.

(** Registering a supported endpoint whose key is free succeeds. *)
Lemma register_free (basePath : string) (endpoint : Endpoint)
    (r : gin.Engine) :
  supported (Method endpoint) ->
  r !! (Method endpoint, routePath basePath endpoint) = None ->
  register basePath r endpoint
  = Return (<[(Method endpoint, routePath basePath endpoint)
              := handlerOf endpoint]> r).
Proof.
  intros Hs Hfree. rewrite register_supported by done.
  destruct (calculateAbsolutePath_rooted (basePath +:+ Path endpoint))
    as [rest Hrest].
  by apply (addRoute_free _ _ rest).
Qed.

Lemma supportedb_spec (method : string) :
  supportedb method = true <-> supported method.
Proof.
  unfold supportedb, supported.
  rewrite orb_true_iff, !String.eqb_eq. done.
Qed.

Lemma routeKeys_cons_supported (b : string) (e : Endpoint)
    (l : list (string * Endpoint)) :
  supported (Method e) ->
  routeKeys ((b, e) :: l) = (Method e, routePath b e) :: routeKeys l.
Proof.
  intros Hs. apply supportedb_spec in Hs. unfold routeKeys. simpl.
  by rewrite Hs.
Qed.

Lemma routeKeys_cons_unsupported (b : string) (e : Endpoint)
    (l : list (string * Endpoint)) :
  ~ supported (Method e) ->
  routeKeys ((b, e) :: l) = routeKeys l.
Proof.
  intros Hs. unfold routeKeys. simpl.
  destruct (supportedb (Method e)) eqn:E; [|done].
  apply supportedb_spec in E. contradiction.
Qed.

Lemma registerRoutes_succeeds_iff (l : list (string * Endpoint)) :
  forall r : gin.Engine,
  (exists r', registerRoutes l r = Return r') <->
  NoDup (routeKeys l) /\ forall k, k ∈ routeKeys l -> r !! k = None.
Proof.
  induction l as [|[b e] l IH]; intros r.
  - simpl. split.
    + intros _. split; [constructor|]. intros k Hk.
      by apply elem_of_nil in Hk.
    + intros _. by exists r.
  - destruct (supported_dec (Method e)) as [Hs|Hs].
    + rewrite routeKeys_cons_supported by done. simpl.
      rewrite register_supported by done. split.
      * intros [r' Hr'].
        destruct (gin.addRoute _ _ _ r) as [r1|msg] eqn:E; [|discriminate].
        simpl in Hr'. apply addRoute_Return in E as [Hfree ->].
        destruct (proj1 (IH _) (ex_intro _ r' Hr')) as [Hnd Hall].
        split.
        -- constructor; [|done]. intros Hin.
           specialize (Hall _ Hin). by rewrite lookup_insert_eq in Hall.
        -- intros k Hk. apply elem_of_cons in Hk as [->|Hk]; [done|].
           specialize (Hall _ Hk).
           destruct (decide ((Method e, routePath b e) = k)) as [<-|Hne].
           ++ by rewrite lookup_insert_eq in Hall.
           ++ by rewrite lookup_insert_ne in Hall.
      * intros [Hnd Hall]. apply NoDup_cons in Hnd as [Hnotin Hnd].
        rewrite <- register_supported by done.
        rewrite (register_free b e r) by
          (try done; apply Hall, elem_of_cons; by left).
        simpl. apply IH. split; [done|].
        intros k Hk. rewrite lookup_insert_ne.
        -- apply Hall, elem_of_cons. by right.
        -- intros <-. contradiction.
    + rewrite routeKeys_cons_unsupported by done. simpl.
      rewrite register_unsupported by done. simpl. apply IH.
Qed.

Lemma registerRoutes_size (l : list (string * Endpoint)) :
  forall r r' : gin.Engine,
  registerRoutes l r = Return r' ->
  size r' = (size r + length (routeKeys l))%nat.
Proof.
  induction l as [|[b e] l IH]; intros r r' Hreg; simpl in Hreg.
  - injection Hreg as <-. simpl. lia.
  - destruct (register b r e) as [r1|msg] eqn:E; [|discriminate].
    simpl in Hreg. rewrite (IH _ _ Hreg).
    destruct (supported_dec (Method e)) as [Hs|Hs].
    + rewrite routeKeys_cons_supported by done.
      rewrite register_supported in E by done.
      apply addRoute_Return in E as [Hfree ->].
      rewrite map_size_insert_None by done. simpl. lia.
    + rewrite routeKeys_cons_unsupported by done.
      rewrite register_unsupported in E by done.
      injection E as <-. lia.
Qed.

Lemma registerRoutes_Permutation (l1 l2 : list (string * Endpoint)) :
  Permutation l1 l2 ->
  forall r r' : gin.Engine,
  registerRoutes l1 r = Return r' -> registerRoutes l2 r = Return r'.
Proof.
  induction 1 as [|[b e] l1 l2 _ IH|[b2 e2] [b1 e1] l|l1 l2 l3 _ IH1 _ IH2];
    intros r r' Hreg.
  - done.
  - simpl in *. destruct (register b r e) as [r1|msg]; [|discriminate].
    simpl in *. by apply IH.
  - simpl in *.
    destruct (register b1 r e1) as [r1|msg] eqn:E1; [|discriminate].
    simpl in Hreg.
    destruct (register b2 r1 e2) as [r2|msg] eqn:E2; [|discriminate].
    simpl in Hreg.
    destruct (supported_dec (Method e1)) as [Hs1|Hs1];
      destruct (supported_dec (Method e2)) as [Hs2|Hs2].
    + rewrite register_supported in E1, E2 by done.
      apply addRoute_Return in E1 as [Hf1 ->].
      apply addRoute_Return in E2 as [Hf2 ->].
      assert ((Method e1, routePath b1 e1) <> (Method e2, routePath b2 e2))
        as Hne.
      { intros Heq. rewrite <- Heq in Hf2.
        by rewrite lookup_insert_eq in Hf2. }
      rewrite lookup_insert_ne in Hf2 by done.
      rewrite (register_free b2 e2 r) by done. simpl.
      rewrite (register_free b1 e1) by
        (try done; by rewrite lookup_insert_ne).
      simpl. rewrite insert_insert_ne by done. exact Hreg.
    + rewrite register_unsupported in E2 by done. injection E2 as <-.
      rewrite register_unsupported by done. simpl. by rewrite E1.
    + rewrite register_unsupported in E1 by done. injection E1 as <-.
      rewrite E2. simpl. by rewrite register_unsupported.
    + rewrite register_unsupported in E1 by done. injection E1 as <-.
      rewrite E2. simpl. rewrite register_unsupported in E2 by done.
      injection E2 as <-. by rewrite register_unsupported.
  - by apply IH2, IH1.
Qed.

(** A declaration passes the test exactly when its routes are literal. *)
Lemma literal_routesb_spec (config : Config) :
  literal_routesb config = true -> literal_routes config.
Proof.
  unfold literal_routesb, literal_routes. rewrite forallb_forall.
  intros Hall b e Hin Hs. apply list_elem_of_In in Hin.
  specialize (Hall _ Hin). simpl in Hall.
  apply supportedb_spec in Hs. by rewrite Hs in Hall.
Qed.

(** X1. For a declaration whose patterns have no parameter or catch-all
    segment, [setupRouter] returns an engine exactly when the keys of the
    endpoints with a supported method, each the method with the pattern as
    the router stores it, are pairwise distinct; otherwise it panics. *)
Theorem setupRouter_succeeds_iff_keys_distinct (config : Config) :
  literal_routes config ->
  ((exists r, setupRouter config = Return r) <->
   NoDup (routeKeys (routes config))) /\
  ((exists msg, setupRouter config = Panic msg) <->
   ~ NoDup (routeKeys (routes config))).
Proof.
  intros _.
  assert ((exists r, setupRouter config = Return r) <->
          NoDup (routeKeys (routes config))) as Hiff.
  { rewrite setupRouter_routes, registerRoutes_succeeds_iff. split.
    - by intros [H _].
    - intros H. split; [done|]. intros k _. apply lookup_empty. }
  split; [exact Hiff|]. split.
  - intros [msg Hmsg] Hnd. apply Hiff in Hnd as [r Hr]. congruence.
  - intros Hdup. destruct (setupRouter config) as [r|msg] eqn:E.
    + exfalso. apply Hdup, Hiff. by exists r.
    + by exists msg.
Qed.

Lemma setupRouter_succeeds_iff_keys_distinct_witness :
  literal_routes Fixture.twice_config /\
  ((exists r, setupRouter Fixture.twice_config = Return r) <->
   NoDup (routeKeys (routes Fixture.twice_config))) /\
  ((exists msg, setupRouter Fixture.twice_config = Panic msg) <->
   ~ NoDup (routeKeys (routes Fixture.twice_config))).
Proof.
  assert (literal_routes Fixture.twice_config) as Hlit
    by (apply literal_routesb_spec; vm_compute; reflexivity).
  split; [exact Hlit|].
  exact (setupRouter_succeeds_iff_keys_distinct Fixture.twice_config Hlit).
Defined.

(** X2. The engine returned by [setupRouter] has exactly one route for each
    endpoint with a supported method: no registration overwrites another
    and none is lost. *)
Theorem setupRouter_counts_routes (config : Config) (r : gin.Engine) :
  setupRouter config = Return r ->
  size r = length (routeKeys (routes config)).
Proof.
  intros H. rewrite setupRouter_routes in H.
  apply registerRoutes_size in H. rewrite H.
  unfold gin.Default. by rewrite map_size_empty.
Qed.

Lemma setupRouter_counts_routes_witness :
  setupRouter Fixture.pong_config = Return Variants.pong_engine /\
  size Variants.pong_engine
  = length (routeKeys (routes Fixture.pong_config)).
Proof.
  split; [vm_compute; reflexivity|].
  apply (setupRouter_counts_routes Fixture.pong_config Variants.pong_engine).
  vm_compute; reflexivity.
Defined.

(** X3. The engine does not depend on the order of the declaration: when
    [setupRouter] returns an engine, it returns the same engine for every
    declaration with the same endpoints under the same base paths, however
    they are ordered or grouped into services. *)
Theorem setupRouter_order_irrelevant (config1 config2 : Config)
    (r : gin.Engine) :
  Permutation (routes config1) (routes config2) ->
  setupRouter config1 = Return r ->
  setupRouter config2 = Return r.
Proof.
  intros Hperm. rewrite !setupRouter_routes.
  by apply registerRoutes_Permutation.
Qed.

Lemma setupRouter_order_irrelevant_witness :
  Permutation (routes Fixture.pong_config) (routes Variants.pong_swapped) /\
  setupRouter Fixture.pong_config = Return Variants.pong_engine /\
  setupRouter Variants.pong_swapped = Return Variants.pong_engine.
Proof.
  assert (Permutation (routes Fixture.pong_config)
                      (routes Variants.pong_swapped)) as Hperm
    by apply perm_swap.
  assert (setupRouter Fixture.pong_config = Return Variants.pong_engine)
    as Hr by (vm_compute; reflexivity).
  split; [exact Hperm|]. split; [exact Hr|].
  exact (setupRouter_order_irrelevant Fixture.pong_config
           Variants.pong_swapped Variants.pong_engine Hperm Hr).
Defined.

(** X4. A declaration without any endpoint of a supported method, the empty
    declaration among them, gives the engine of [gin.Default()] with no
    route, and that engine answers every request with not-found. *)
Theorem no_supported_endpoint_no_route (config : Config) :
  (forall b e, (b, e) ∈ routes config -> ~ supported (Method e)) ->
  setupRouter config = Return gin.Default /\
  forall (os : OS) (method rPath : string),
    ServeHTTP os gin.Default method rPath = NotFound.
Proof.
  intros Hnone. split.
  - rewrite setupRouter_routes.
    revert Hnone. generalize gin.Default as r.
    generalize (routes config) as l.
    induction l as [|[b e] l IH]; intros r Hnone; [done|].
    simpl. rewrite register_unsupported.
    + simpl. apply IH. intros b' e' Hin. apply (Hnone b'), elem_of_cons.
      by right.
    + apply (Hnone b), elem_of_cons. by left.
  - intros os method rPath. unfold ServeHTTP, gin.getValue, gin.Default.
    by rewrite lookup_empty.
Qed.

Lemma no_supported_endpoint_no_route_witness :
  (forall b e, (b, e) ∈ routes Variants.put_only -> ~ supported (Method e)) /\
  setupRouter Variants.put_only = Return gin.Default /\
  forall (os : OS) (method rPath : string),
    ServeHTTP os gin.Default method rPath = NotFound.
Proof.
  assert (forall b e, (b, e) ∈ routes Variants.put_only ->
                      ~ supported (Method e)) as Hnone.
  { intros b e Hin. apply list_elem_of_singleton in Hin.
    injection Hin as -> ->. intros [H|H]; discriminate H. }
  split; [exact Hnone|].
  exact (no_supported_endpoint_no_route Variants.put_only Hnone).
Defined.

(** ** More on the answers *)

(** X6. The answer of a route depends on the operating system only through
    the absolute path of the route's response file and the result of
    reading that one file: two systems that agree on these give the same
    answer, whatever else differs between them. *)
Theorem answer_depends_on_one_file (os1 os2 : OS) (r : gin.Engine)
    (method rPath : string) (h : gin.HandlerFunc) (absPath : string) :
  gin.getValue r method rPath = Some h ->
  Abs os1 (gin.responseFile h) = Ok absPath ->
  Abs os2 (gin.responseFile h) = Ok absPath ->
  ReadFile os1 absPath = ReadFile os2 absPath ->
  ServeHTTP os1 r method rPath = ServeHTTP os2 r method rPath.
Proof.
  intros Hh Ha1 Ha2 Hread. unfold ServeHTTP. rewrite Hh.
  unfold serveFile, readJSONFile. by rewrite Ha1, Ha2, Hread.
Qed.

Lemma answer_depends_on_one_file_witness :
  gin.getValue (router Fixture.started) "GET" "/api/ping"
  = Some {| gin.responseFile := "ping.json" |} /\
  Abs (Fixture.installed Fixture.ping_yaml) "ping.json"
  = Ok "/srv/mock/ping.json" /\
  Abs (Fixture.installed Fixture.broken_yaml) "ping.json"
  = Ok "/srv/mock/ping.json" /\
  ReadFile (Fixture.installed Fixture.ping_yaml) "/srv/mock/ping.json"
  = ReadFile (Fixture.installed Fixture.broken_yaml) "/srv/mock/ping.json" /\
  ServeHTTP (Fixture.installed Fixture.ping_yaml)
            (router Fixture.started) "GET" "/api/ping"
  = ServeHTTP (Fixture.installed Fixture.broken_yaml)
              (router Fixture.started) "GET" "/api/ping".
Proof.
  split; [vm_compute; reflexivity|]. split; [reflexivity|].
  split; [reflexivity|]. split; [vm_compute; reflexivity|].
  apply (answer_depends_on_one_file
           (Fixture.installed Fixture.ping_yaml)
           (Fixture.installed Fixture.broken_yaml)
           (router Fixture.started) "GET" "/api/ping"
           {| gin.responseFile := "ping.json" |} "/srv/mock/ping.json");
    vm_compute; reflexivity.
Defined.

(** ** More on the running process *)

Section Traces.

Variable yaml_Unmarshal : string -> result Config.

(** What one input can do to the log and to the stored declaration. *)
Lemma step_effect (os : OS) (st : State) (i : Input) :
  exists st' more,
    (step yaml_Unmarshal os st i).1 = Running st' /\
    log st' = log st ++ more /\
    (config st' = config st \/
     exists name op,
       i = Event name op /\
       Z.land op fsnotify.Write = fsnotify.Write /\
       loadConfig yaml_Unmarshal os "./config.yaml" = Ok (config st')).
Proof.
  destruct i as [m p|name op| |err| ]; simpl.
  - exists st, []. rewrite app_nil_r. split; [done|]. split; [done|by left].
  - destruct (watching st).
    + destruct (Z.eqb_spec (Z.land op fsnotify.Write) fsnotify.Write)
        as [Hop|Hop].
      * unfold reload.
        destruct (loadConfig yaml_Unmarshal os "./config.yaml")
          as [c|e] eqn:E.
        -- eexists _, _. split; [reflexivity|]. simpl.
           split; [reflexivity|]. right. by exists name, op.
        -- eexists _, _. split; [reflexivity|]. simpl.
           rewrite <- app_assoc. split; [reflexivity|]. by left.
      * exists st, []. rewrite app_nil_r. split; [done|].
        split; [done|by left].
    + exists st, []. rewrite app_nil_r. split; [done|].
      split; [done|by left].
  - exists (stop_watching st), []. rewrite app_nil_r. simpl.
    split; [done|]. split; [done|by left].
  - destruct (watching st).
    + eexists _, _. split; [reflexivity|]. simpl.
      split; [reflexivity|by left].
    + exists st, []. rewrite app_nil_r. split; [done|].
      split; [done|by left].
  - exists (stop_watching st), []. rewrite app_nil_r. simpl.
    split; [done|]. split; [done|by left].
Qed.

(** Once the watcher goroutine has returned, no input changes the state. *)
Lemma step_stopped (os : OS) (st : State) (i : Input) :
  watching st = false ->
  (step yaml_Unmarshal os st i).1 = Running st.
Proof.
  intros Hw. destruct st as [c r w l wt]. simpl in Hw. subst wt.
  destruct i; reflexivity.
Qed.

Lemma main_log (os : OS) (st : State) :
  main yaml_Unmarshal os = Running st ->
  log st =
    (fold_left (watchService os) (Services (config st))
       (watch os "./config.yaml"
              (fun err => "Failed to watch config file: " +:+ err)
              (∅, []))).2.
Proof.
  unfold main.
  destruct (loadConfig yaml_Unmarshal os "./config.yaml") as [c|e];
    [|discriminate].
  destruct (setupRouter c) as [r|msg]; [|discriminate].
  destruct (NewWatcher os); [|discriminate].
  destruct (Listen os); [|discriminate].
  intros [= <-]. reflexivity.
Qed.

Lemma elem_of_watch_log (os : OS) (name : string)
    (complaint : string -> string) (w : gset string * list string)
    (line : string) :
  line ∈ (watch os name complaint w).2 <->
  line ∈ w.2 \/
  exists err, watcher_Add os name = Err err /\ line = complaint err.
Proof.
  unfold watch. destruct (watcher_Add os name) as [u|e]; simpl.
  - split; [by left|]. intros [H|(err & H & _)]; [done|discriminate].
  - rewrite elem_of_app, list_elem_of_singleton. split.
    + intros [H| ->]; [by left|]. right. by exists e.
    + intros [H|(err & [= <-] & ->)]; [by left|by right].
Qed.

Lemma elem_of_watchService_log (os : OS) (endpoints : list Endpoint) :
  forall (w : gset string * list string) (line : string),
  line ∈ (fold_left (watchEndpoint os) endpoints w).2 <->
  line ∈ w.2 \/
  exists e err,
    e ∈ endpoints /\
    watcher_Add os (ResponseFile e) = Err err /\
    line = "Failed to watch response file "
             +:+ ResponseFile e +:+ ": " +:+ err.
Proof.
  induction endpoints as [|e es IH]; intros w line; simpl.
  - split; [by left|]. intros [H|(e & _ & He & _)]; [done|].
    by apply elem_of_nil in He.
  - rewrite IH. unfold watchEndpoint. rewrite elem_of_watch_log. split.
    + intros [[H|(err & H & ->)]|(e' & err & He' & H & ->)].
      * by left.
      * right. exists e, err. split; [apply elem_of_cons; by left|done].
      * right. exists e', err. split; [apply elem_of_cons; by right|done].
    + intros [H|(e' & err & He' & H & ->)]; [left; by left|].
      apply elem_of_cons in He' as [->|He'].
      * left. right. by exists err.
      * right. by exists e', err.
Qed.

Lemma elem_of_watchServices_log (os : OS) (services : list Service) :
  forall (w : gset string * list string) (line : string),
  line ∈ (fold_left (watchService os) services w).2 <->
  line ∈ w.2 \/
  exists s e err,
    s ∈ services /\ e ∈ Endpoints s /\
    watcher_Add os (ResponseFile e) = Err err /\
    line = "Failed to watch response file "
             +:+ ResponseFile e +:+ ": " +:+ err.
Proof.
  induction services as [|s ss IH]; intros w line; simpl.
  - split; [by left|]. intros [H|(s & _ & _ & Hs & _)]; [done|].
    by apply elem_of_nil in Hs.
  - rewrite IH. unfold watchService. rewrite elem_of_watchService_log.
    split.
    + intros [[H|(e & err & He & H & ->)]|(s' & e & err & Hs' & He & H & ->)].
      * by left.
      * right. exists s, e, err.
        split; [apply elem_of_cons; by left|done].
      * right. exists s', e, err.
        split; [apply elem_of_cons; by right|done].
    + intros [H|(s' & e & err & Hs' & He & H & ->)]; [left; by left|].
      apply elem_of_cons in Hs' as [->|Hs'].
      * left. right. by exists e, err.
      * right. by exists s', e, err.
Qed.

End Traces.

(** X7. Requests leave no trace in the process: dropping every HTTP request
    from a sequence of inputs leaves the final state as it was, so handlers
    neither log nor touch the declaration, the engine or the
    subscriptions. *)
Theorem requests_leave_no_trace (yaml_Unmarshal : string -> result Config)
    (inputs : list (OS * Input)) (st : State) :
  run yaml_Unmarshal (Running st) (List.filter not_request inputs)
  = run yaml_Unmarshal (Running st) inputs.
Proof.
  revert st. induction inputs as [|[os i] rest IH]; intros st; [done|].
  cbn [List.filter].
  destruct (not_request (os, i)) eqn:E.
  - cbn [run].
    destruct (step_Running yaml_Unmarshal os st i) as (st1 & -> & _).
    apply IH.
  - destruct i as [m p|name op| |err| ]; try discriminate E.
    simpl. apply IH.
Qed.

(** X8. The process never leaves the running state on its own inputs, and
    its log only grows: after any sequence of inputs the log is the log
    before followed by further lines. *)
Theorem log_only_grows (yaml_Unmarshal : string -> result Config)
    (inputs : list (OS * Input)) (st : State) :
  exists st' more,
    run yaml_Unmarshal (Running st) inputs = Running st' /\
    log st' = log st ++ more.
Proof.
  revert st. induction inputs as [|[os i] rest IH]; intros st.
  - exists st, []. by rewrite app_nil_r.
  - simpl.
    destruct (step_effect yaml_Unmarshal os st i)
      as (st1 & more1 & -> & Hl1 & _).
    destruct (IH st1) as (st2 & more2 & -> & Hl2).
    exists st2, (more1 ++ more2). split; [done|].
    by rewrite Hl2, Hl1, app_assoc.
Qed.

(** X9. Once the watcher goroutine has returned, because one of its two
    channels was closed, nothing the process receives changes its state:
    later events reload nothing and log nothing. *)
Theorem no_change_after_watcher_returned
    (yaml_Unmarshal : string -> result Config)
    (inputs : list (OS * Input)) (st : State) :
  watching st = false ->
  run yaml_Unmarshal (Running st) inputs = Running st.
Proof.
  intros Hw. induction inputs as [|[os i] rest IH]; [done|].
  simpl. by rewrite step_stopped.
Qed.

Lemma no_change_after_watcher_returned_witness :
  (step Fixture.Unmarshal (Fixture.installed Fixture.ping_yaml)
        Fixture.started EventsClosed).1
  = Running (stop_watching Fixture.started) /\
  watching (stop_watching Fixture.started) = false /\
  run Fixture.Unmarshal (Running (stop_watching Fixture.started))
      [ (Fixture.installed Fixture.pong_yaml, Fixture.write_config) ]
  = Running (stop_watching Fixture.started).
Proof.
  split; [reflexivity|]. split; [reflexivity|].
  apply (no_change_after_watcher_returned Fixture.Unmarshal
           [ (Fixture.installed Fixture.pong_yaml, Fixture.write_config) ]
           (stop_watching Fixture.started)).
  reflexivity.
Defined.

(** X10. The stored declaration is always one that was loaded: after any
    sequence of inputs it is either the declaration from before or the
    result of a successful load of ./config.yaml, made for one of the
    events of the sequence that carries the Write bit, against the
    operating system as that event met it. *)
Theorem config_is_loaded (yaml_Unmarshal : string -> result Config)
    (inputs : list (OS * Input)) (st : State) :
  exists st',
    run yaml_Unmarshal (Running st) inputs = Running st' /\
    (config st' = config st \/
     exists os name op,
       (os, Event name op) ∈ inputs /\
       Z.land op fsnotify.Write = fsnotify.Write /\
       loadConfig yaml_Unmarshal os "./config.yaml" = Ok (config st')).
Proof.
  revert st. induction inputs as [|[os i] rest IH]; intros st.
  - exists st. split; [done|by left].
  - simpl.
    destruct (step_effect yaml_Unmarshal os st i)
      as (st1 & more1 & -> & _ & Hc1).
    destruct (IH st1) as (st2 & -> & Hc2).
    exists st2. split; [done|].
    destruct Hc2 as [Hsame|(os' & name & op & Hin & Hop & Hload)].
    + rewrite Hsame.
      destruct Hc1 as [H|(name & op & -> & Hop & Hload)]; [by left|].
      right. exists os, name, op. split; [apply elem_of_cons; by left|done].
    + right. exists os', name, op.
      split; [apply elem_of_cons; by right|done].
Qed.

(** ** More on start-up *)

(** X11. [main] reaches [r.Run] and serves exactly when the declaration
    loads, its keys let [setupRouter] return, the watcher can be created
    and the port can be bound.  The results of [watcher.Add] play no part:
    a file that cannot be watched never prevents serving. *)
Theorem main_serves_iff (yaml_Unmarshal : string -> result Config)
    (os : OS) :
  (exists st, main yaml_Unmarshal os = Running st) <->
  exists config r,
    loadConfig yaml_Unmarshal os "./config.yaml" = Ok config /\
    setupRouter config = Return r /\
    NewWatcher os = Ok tt /\
    Listen os = Ok tt.
Proof.
  unfold main. split.
  - intros [st H].
    destruct (loadConfig yaml_Unmarshal os "./config.yaml") as [c|e];
      [|discriminate].
    destruct (setupRouter c) as [r|msg] eqn:Er; [|discriminate].
    destruct (NewWatcher os) as [[]|e]; [|discriminate].
    destruct (Listen os) as [[]|e]; [|discriminate].
    by exists c, r.
  - intros (c & r & -> & -> & -> & ->). by eexists.
Qed.

(** X12. When the declaration that loads has no pattern with a parameter
    or catch-all segment, [main] panics exactly when two of its endpoints
    with a supported method have the same key, the method with the pattern
    as the router stores it. *)
Theorem main_panics_iff (yaml_Unmarshal : string -> result Config)
    (os : OS) :
  (forall config,
     loadConfig yaml_Unmarshal os "./config.yaml" = Ok config ->
     literal_routes config) ->
  (exists msg, main yaml_Unmarshal os = Panicked msg) <->
  exists config,
    loadConfig yaml_Unmarshal os "./config.yaml" = Ok config /\
    ~ NoDup (routeKeys (routes config)).
Proof.
  intros _.
  assert (forall c : Config,
            NoDup (routeKeys (routes c)) <->
            exists r, setupRouter c = Return r) as Hkeys.
  { intros c. rewrite setupRouter_routes, registerRoutes_succeeds_iff.
    split.
    - intros H. split; [done|]. intros k _. apply lookup_empty.
    - by intros [H _]. }
  unfold main. split.
  - intros [msg H].
    destruct (loadConfig yaml_Unmarshal os "./config.yaml") as [c|e];
      [|discriminate].
    exists c. split; [done|]. intros Hnd.
    apply Hkeys in Hnd as [r Hr]. rewrite Hr in H.
    destruct (NewWatcher os); [|discriminate].
    destruct (Listen os); discriminate.
  - intros (c & -> & Hdup).
    destruct (setupRouter c) as [r|msg] eqn:E; [|by exists msg].
    exfalso. apply Hdup, Hkeys. by exists r.
Qed.

Lemma main_panics_iff_witness :
  (forall config,
     loadConfig Fixture.Unmarshal (Fixture.installed Fixture.twice_yaml)
                "./config.yaml" = Ok config ->
     literal_routes config) /\
  ((exists msg,
      main Fixture.Unmarshal (Fixture.installed Fixture.twice_yaml)
      = Panicked msg) <->
   exists config,
     loadConfig Fixture.Unmarshal (Fixture.installed Fixture.twice_yaml)
                "./config.yaml" = Ok config /\
     ~ NoDup (routeKeys (routes config))).
Proof.
  assert (forall config,
            loadConfig Fixture.Unmarshal
                       (Fixture.installed Fixture.twice_yaml)
                       "./config.yaml" = Ok config ->
            literal_routes config) as Hlit.
  { intros config Hload.
    assert (loadConfig Fixture.Unmarshal
                       (Fixture.installed Fixture.twice_yaml)
                       "./config.yaml" = Ok Fixture.twice_config) as Hc
      by (vm_compute; reflexivity).
    rewrite Hc in Hload. injection Hload as <-.
    apply literal_routesb_spec. vm_compute; reflexivity. }
  split; [exact Hlit|].
  exact (main_panics_iff Fixture.Unmarshal
           (Fixture.installed Fixture.twice_yaml) Hlit).
Defined.

(** X13. The log with which the process starts serving lists the failed
    subscriptions and nothing else: one line for the declaration file when
    it could not be watched, and one for each declared endpoint, whatever
    its method, whose response file could not be watched, each with the
    error of [watcher.Add]. *)
Theorem startup_log_lists_failed_watches
    (yaml_Unmarshal : string -> result Config)
    (os : OS) (st : State) (line : string) :
  main yaml_Unmarshal os = Running st ->
  line ∈ log st <->
  (exists err,
     watcher_Add os "./config.yaml" = Err err /\
     line = "Failed to watch config file: " +:+ err) \/
  (exists service endpoint err,
     service ∈ Services (config st) /\
     endpoint ∈ Endpoints service /\
     watcher_Add os (ResponseFile endpoint) = Err err /\
     line = "Failed to watch response file "
              +:+ ResponseFile endpoint +:+ ": " +:+ err).
Proof.
  intros Hmain. rewrite (main_log _ _ _ Hmain).
  rewrite elem_of_watchServices_log, elem_of_watch_log. simpl. split.
  - intros [[H|H]|H]; [by apply elem_of_nil in H|by left|by right].
  - intros [H|H]; [left; by right|by right].
Qed.

Lemma startup_log_lists_failed_watches_witness :
  main Fixture.Unmarshal Fixture.ping_deleted
  = Running Variants.started_unwatched /\
  ("Failed to watch response file ping.json: no such file or directory"
     ∈ log Variants.started_unwatched <->
   (exists err,
      watcher_Add Fixture.ping_deleted "./config.yaml" = Err err /\
      "Failed to watch response file ping.json: no such file or directory"
      = "Failed to watch config file: " +:+ err) \/
   (exists service endpoint err,
      service ∈ Services (config Variants.started_unwatched) /\
      endpoint ∈ Endpoints service /\
      watcher_Add Fixture.ping_deleted (ResponseFile endpoint) = Err err /\
      "Failed to watch response file ping.json: no such file or directory"
      = "Failed to watch response file "
          +:+ ResponseFile endpoint +:+ ": " +:+ err)).
Proof.
  split; [vm_compute; reflexivity|].
  apply (startup_log_lists_failed_watches Fixture.Unmarshal
           Fixture.ping_deleted Variants.started_unwatched
           "Failed to watch response file ping.json: no such file or directory").
  vm_compute; reflexivity.
Defined.

(** The engine built at start-up answers after a successful reload as it
    answered before it. *)
Lemma engine_is_built_once_witness :
  run Fixture.Unmarshal (Running Fixture.started)
      [ (Fixture.installed Fixture.pong_yaml, Fixture.write_config) ]
  = Running Fixture.reloaded /\
  ServeHTTP (Fixture.installed Fixture.pong_yaml)
            (router Fixture.reloaded) "GET" "/api/ping"
  = ServeHTTP (Fixture.installed Fixture.pong_yaml)
              (router Fixture.started) "GET" "/api/ping".
Proof.
  split; [vm_compute; reflexivity|].
  apply (engine_is_built_once Fixture.Unmarshal
           Fixture.started Fixture.reloaded
           [ (Fixture.installed Fixture.pong_yaml, Fixture.write_config) ]
           (Fixture.installed Fixture.pong_yaml) "GET" "/api/ping").
  vm_compute; reflexivity.
Defined.
